(** * okex-rest: the request signing, dispatch and response handling of the
    OKEX REST client, embedded from the JavaScript source.

    Strings are modelled by their UTF-8 byte sequences ([string] of Stdlib),
    which is what the digest hashes; where JavaScript looks at the UTF-16
    code units of a string (the order of [sort]), they are computed from the
    bytes.  A number is given by an integer or a decimal numeral and stands
    for the double nearest to it. *)

From Stdlib Require Import ZArith String Ascii List Lia DecimalString.
From stdpp Require Import base list sorting strings.

Set Warnings "-register-all".

Local Open Scope Z_scope.
Local Open Scope string_scope.

(** ** Numbers

    The Number values of JavaScript are the IEEE 754 doubles.  [to_double]
    reads a decimal numeral as the source text of a program is read, and
    [to_string] prints a double as [Number.prototype.toString] does: the
    shortest digits that read back as the same double. *)
Module Number.

Local Open Scope Z_scope.

(** [Finite negative m e] is [m * 2 ^ e], with [2 ^ 52 <= m < 2 ^ 53] or
    [e = -1074], and [e <= 971]; zero is [m = 0]. *)
Inductive double : Type :=
| NaN
| Infinity (negative : bool)
| Finite (negative : bool) (m e : Z).

(** [n / d] rounded to the nearest integer, a tie to the even one. *)
Definition round_half_even (n d : Z) : Z :=
  let q := n / d in
  let r := n mod d in
  if (2 * r >? d) || ((2 * r =? d) && Z.odd q) then q + 1 else q.

(** The quotient [n / (d * 2 ^ e)]. *)
Definition scaled (n d e : Z) : Z * Z :=
  (n * 2 ^ Z.max 0 (- e), d * 2 ^ Z.max 0 e).

(** The Number value of [s * 10 ^ p]. *)
Definition to_double (s p : Z) : double :=
  let negative := s <? 0 in
  let n := Z.abs s * 10 ^ Z.max 0 p in
  let d := 10 ^ Z.max 0 (- p) in
  if n =? 0 then Finite negative 0 0 else
  let l := Z.log2 n - Z.log2 d in
  let e := l - 52 in
  let e := if (let '(a, b) := scaled n d e in a / b) <? 2 ^ 52 then e - 1 else e in
  let e := Z.max e (-1074) in
  let m := let '(a, b) := scaled n d e in round_half_even a b in
  let '(m, e) := if m =? 2 ^ 53 then (2 ^ 52, e + 1) else (m, e) in
  if e >? 971 then Infinity negative
  else if m =? 0 then Finite negative 0 0
  else Finite negative m e.

(** The [s] for which [s * 10 ^ p] reads back as [m * 2 ^ e], if there is
    one: it lies between the midpoints to the neighbouring doubles, which
    are themselves read as [m * 2 ^ e] when [m] is even.  Of two such [s]
    the nearer is taken.  All quantities are scaled to integers. *)
Definition candidate (m e p : Z) : option Z :=
  let k := Z.max 0 (e - 2) in
  let v := 4 * m * 2 ^ k in
  let low := v - (if (m =? 2 ^ 52) && (e >? -1074) then 1 else 2) * 2 ^ k in
  let high := v + 2 * 2 ^ k in
  let den := 2 ^ Z.max 0 (2 - e) in
  let up := 10 ^ Z.max 0 p in
  let down := 10 ^ Z.max 0 (- p) in
  let inside s :=
    if Z.even m
    then (low * down <=? s * up * den) && (s * up * den <=? high * down)
    else (low * down <? s * up * den) && (s * up * den <? high * down) in
  let s0 := (v * down) / (den * up) in
  let s1 := s0 + 1 in
  match inside s0 && (0 <? s0), inside s1 with
  | true, true =>
      let twice := 2 * v * down in
      let sum := (s0 + s1) * up * den in
      if twice <? sum then Some s0
      else if sum <? twice then Some s1
      else if Z.even s0 then Some s0 else Some s1
  | true, false => Some s0
  | false, true => Some s1
  | false, false => None
  end.

(** The largest [p] with a candidate gives the fewest digits; the search
    goes down from [p] and ends well within [fuel] steps. *)
Fixpoint shortest (fuel : nat) (m e p : Z) : Z * Z :=
  match fuel with
  | O => (m * 2 ^ Z.max 0 e, 0)
  | S fuel =>
      match candidate m e p with
      | Some s => (s, p)
      | None => shortest fuel m e (p - 1)
      end
  end.

Definition digits (s : Z) : string :=
  NilZero.string_of_uint (N.to_uint (Z.to_N s)).

Definition zeros (n : Z) : string :=
  string_of_list_ascii (repeat "0"%char (Z.to_nat n)).

(** [s] with [ins] put in after its first [n] characters. *)
Fixpoint insert_at (n : nat) (ins s : string) : string :=
  match n, s with
  | O, _ => ins +:+ s
  | S n, String c rest => String c (insert_at n ins rest)
  | S _, EmptyString => ins
  end.

Definition exponent (n : Z) : string :=
  (if n <? 0 then "e-" else "e+") +:+ digits (Z.abs n).

(** The digits [ds] of [s] and the position [n] of the point after them:
    the value is [0.ds * 10 ^ n]. *)
Definition layout (ds : string) (n : Z) : string :=
  let k := Z.of_nat (String.length ds) in
  if (k <=? n) && (n <=? 21) then ds +:+ zeros (n - k)
  else if (0 <? n) && (n <=? 21) then insert_at (Z.to_nat n) "." ds
  else if (-6 <? n) && (n <=? 0) then "0." +:+ zeros (- n) +:+ ds
  else if k =? 1 then ds +:+ exponent (n - 1)
  else insert_at 1 "." ds +:+ exponent (n - 1).

(** Number::toString(x), radix 10. *)
Definition to_string (x : double) : string :=
  match x with
  | NaN => "NaN"
  | Infinity negative => if negative then "-Infinity" else "Infinity"
  | Finite negative m e =>
      if m =? 0 then "0"
      else
        let l := Z.log2 m + e in
        let p0 := Z.max (l / 3) (- ((- l) * 3 / 10)) + 2 in
        let '(s, p) := shortest 400 m e p0 in
        let ds := digits s in
        let body := layout ds (p + Z.of_nat (String.length ds)) in
        if negative then "-" +:+ body else body
  end.

End Number.

(** ** JavaScript values *)

(** A function is an object that is callable; [fn] holds its source text
    when the object is a function.  [props] are the own enumerable
    properties in insertion order.  [JNum n] is the number the integer
    [n] stands for, [JDec s p] the number the numeral [s * 10 ^ p] stands
    for. *)
Inductive value : Type :=
| JUndefined
| JNull
| JBool (b : bool)
| JNum (n : Z)
| JDec (s p : Z)
| JNaN
| JStr (s : string)
| JObj (fn : option string) (props : list (string * value)).

(** An object literal [{k1: v1, ...}]. *)
Definition obj (props : list (string * value)) : value := JObj None props.

(** A function value, e.g. a callback. *)
Definition func (src : string) : value := JObj (Some src) [].

(** [typeof v == 'function'] *)
Definition is_function (v : value) : bool :=
  match v with
  | JObj (Some _) _ => true
  | _ => false
  end.

(** ToBoolean: the test of [if (v)] and the operand of [!v]. *)
Definition truthy (v : value) : bool :=
  match v with
  | JUndefined | JNull => false
  | JBool b => b
  | JNum n => negb (n =? 0)%Z
  | JDec s p =>
      match Number.to_double s p with
      | Number.Finite _ m _ => negb (m =? 0)%Z
      | Number.Infinity _ => true
      | Number.NaN => false
      end
  | JNaN => false
  | JStr s => negb (String.eqb s EmptyString)
  | JObj _ _ => true
  end.

(** The string of the number an integer stands for: its digits as long as
    every integer of its size is a double. *)
Definition decimal (n : Z) : string :=
  if (Z.abs n <? 2 ^ 53)%Z then NilZero.string_of_int (Z.to_int n)
  else Number.to_string (Number.to_double n 0).

(** ToString: what [+] with a string operand and the [%s] directive make
    of a value. *)
Definition to_string (v : value) : string :=
  match v with
  | JUndefined => "undefined"
  | JNull => "null"
  | JBool true => "true"
  | JBool false => "false"
  | JNum n => decimal n
  | JDec s p => Number.to_string (Number.to_double s p)
  | JNaN => "NaN"
  | JStr s => s
  | JObj (Some src) _ => src
  | JObj None _ => "[object Object]"
  end.

(** [a || b] *)
Definition js_or (a b : value) : value := if truthy a then a else b.

(** [_.isObject]: functions and non-null objects. *)
Definition isObject (v : value) : bool :=
  match v with
  | JObj _ _ => true
  | _ => false
  end.

(** [_.isUndefined] *)
Definition isUndefined (v : value) : bool :=
  match v with
  | JUndefined => true
  | _ => false
  end.

Fixpoint assoc (k : string) (props : list (string * value)) : option value :=
  match props with
  | [] => None
  | (k', v) :: rest => if String.eqb k k' then Some v else assoc k rest
  end.

(** [_.keys]: the own enumerable property names; empty for a non-object. *)
Definition keys (v : value) : list string :=
  match v with
  | JObj _ props => map fst props
  | _ => []
  end.

(** [_.has(v, k)]: [v != null && hasOwnProperty.call(v, k)]. *)
Definition has (v : value) (k : string) : bool :=
  match v with
  | JObj _ props => bool_decide (is_Some (assoc k props))
  | _ => false
  end.

Definition native (name : string) : value :=
  func ("function " +:+ name +:+ "() { [native code] }").

(** The members every plain object inherits from [Object.prototype]. *)
Definition Object_prototype : list (string * value) :=
  [ ("constructor", native "Object");
    ("__defineGetter__", native "__defineGetter__");
    ("__defineSetter__", native "__defineSetter__");
    ("hasOwnProperty", native "hasOwnProperty");
    ("__lookupGetter__", native "__lookupGetter__");
    ("__lookupSetter__", native "__lookupSetter__");
    ("isPrototypeOf", native "isPrototypeOf");
    ("propertyIsEnumerable", native "propertyIsEnumerable");
    ("toString", native "toString");
    ("valueOf", native "valueOf");
    ("__proto__", obj []);
    ("toLocaleString", native "toLocaleString") ].

(** [o[k]]: an own property, else an inherited one, else [undefined]. *)
Definition get (o : value) (k : string) : value :=
  match o with
  | JObj _ props =>
      match assoc k props with
      | Some v => v
      | None => default JUndefined (assoc k Object_prototype)
      end
  | _ => JUndefined
  end.

Fixpoint set_assoc (k : string) (v : value) (props : list (string * value))
  : list (string * value) :=
  match props with
  | [] => [(k, v)]
  | (k', v') :: rest =>
      if String.eqb k k' then (k, v) :: rest else (k', v') :: set_assoc k v rest
  end.

(** [o.k = v] on an object: an existing property keeps its place, a new one
    goes last. *)
Definition set_prop (k : string) (v : value) (o : value) : value :=
  match o with
  | JObj fn props => JObj fn (set_assoc k v props)
  | _ => o
  end.

(** ** Parameter canonicalizer *)

(** The UTF-16 code units of the text that the bytes [s] encode in UTF-8.
    [need] bytes of the character begun are still to come and [cp] holds its
    bits so far; a character beyond U+FFFF gives a surrogate pair, and a byte
    that fits no character gives U+FFFD. *)
Fixpoint utf16_from (need : nat) (cp : N) (s : string) : list N :=
  let emit (cp : N) : list N :=
    if (cp <? 0x10000)%N then [cp]
    else [(0xD800 + (cp - 0x10000) / 0x400)%N;
          (0xDC00 + (cp - 0x10000) mod 0x400)%N] in
  match s with
  | EmptyString => match need with O => [] | S _ => [0xFFFD%N] end
  | String c rest =>
      let b := N_of_ascii c in
      let start :=
        if (b <? 0x80)%N then b :: utf16_from 0 0 rest
        else if (b <? 0xC0)%N then 0xFFFD%N :: utf16_from 0 0 rest
        else if (b <? 0xE0)%N then utf16_from 1 (b mod 0x20)%N rest
        else if (b <? 0xF0)%N then utf16_from 2 (b mod 0x10)%N rest
        else if (b <? 0xF8)%N then utf16_from 3 (b mod 0x08)%N rest
        else 0xFFFD%N :: utf16_from 0 0 rest in
      match need with
      | O => start
      | S need' =>
          if ((0x80 <=? b) && (b <? 0xC0))%N then
            let cp := (cp * 0x40 + b mod 0x40)%N in
            match need' with
            | O => (emit cp ++ utf16_from 0 0 rest)%list
            | S _ => utf16_from need' cp rest
            end
          else 0xFFFD%N :: start
      end
  end.

Definition utf16 (s : string) : list N := utf16_from 0 0 s.

Fixpoint units_compare (xs ys : list N) : comparison :=
  match xs, ys with
  | [], [] => Eq
  | [], _ :: _ => Lt
  | _ :: _, [] => Gt
  | x :: xs, y :: ys =>
      match (x ?= y)%N with
      | Eq => units_compare xs ys
      | c => c
      end
  end.

(** Strings are compared by their code units, as JavaScript's [<] does.
    Only byte strings that are not UTF-8 text, which stand for no
    JavaScript string, can have the same code units; their bytes tell them
    apart. *)
Definition code_unit_compare (a b : string) : comparison :=
  match units_compare (utf16 a) (utf16 b) with
  | Eq => String.compare a b
  | c => c
  end.

(** The order of [Array.prototype.sort] without a comparator. *)
Definition string_le (a b : string) : Prop :=
  Is_true (match code_unit_compare a b with Gt => false | _ => true end).

#[global] Instance string_le_dec (a b : string) : Decision (string_le a b).
Proof. unfold string_le. apply _. Defined.

(** [xs.sort()] *)
Definition sort (xs : list string) : list string := merge_sort string_le xs.

(** Text of ASCII characters alone, as the parameter names of the
    exchange are. *)
Definition ascii_only (s : string) : bool :=
  forallb (fun c => (N_of_ascii c <? 0x80)%N) (list_ascii_of_string s).

(** The [for] loop of [formatParameters], from index [i] on, where
    [sortedKeys] holds the keys still to visit. *)
Fixpoint formatParameters_loop (params : value) (sortedKeys : list string)
  (i : nat) (formattedParams : string) : string :=
  match sortedKeys with
  | [] => formattedParams
  | k :: rest =>
      let formattedParams :=
        if negb (Nat.eqb i 0) then formattedParams +:+ "&" else formattedParams in
      formatParameters_loop params rest (S i)
        (formattedParams +:+ (k +:+ "=" +:+ to_string (get params k)))
  end.

Definition formatParameters (params : value) : string :=
  let sortedKeys := sort (keys params) in
  formatParameters_loop params sortedKeys 0 EmptyString.

(** The canonical string in the words of its contract: the [key=value]
    pairs, keys ascending, joined by [&]. *)
Definition pair_of (params : value) (k : string) : string :=
  k +:+ "=" +:+ to_string (get params k).

Definition canonical_pairs (params : value) : list string :=
  map (pair_of params) (sort (keys params)).

Definition canonical_string (params : value) : string :=
  String.concat "&" (canonical_pairs params).

(** ** The digest

    [md5] is the function of the [md5] package the source imports: the MD5
    message digest of RFC 1321 over the bytes of the string, printed as
    lowercase hexadecimal. *)
Module MD5.

Definition add32 (x y : Z) : Z := (x + y) mod 2 ^ 32.

Definition not32 (x : Z) : Z := Z.lxor x 0xffffffff.

Definition rotl32 (x s : Z) : Z :=
  Z.lor (Z.shiftl x s mod 2 ^ 32) (Z.shiftr x (32 - s)).

Definition F (x y z : Z) : Z := Z.lor (Z.land x y) (Z.land (not32 x) z).
Definition G (x y z : Z) : Z := Z.lor (Z.land x z) (Z.land y (not32 z)).
Definition H (x y z : Z) : Z := Z.lxor (Z.lxor x y) z.
Definition I (x y z : Z) : Z := Z.lxor y (Z.lor x (not32 z)).

(** [T[i] = floor (2^32 * abs (sin (i + 1)))] *)
Definition T : list Z :=
[ 0xd76aa478; 0xe8c7b756; 0x242070db; 0xc1bdceee; 0xf57c0faf; 0x4787c62a; 0xa8304613; 0xfd469501;
  0x698098d8; 0x8b44f7af; 0xffff5bb1; 0x895cd7be; 0x6b901122; 0xfd987193; 0xa679438e; 0x49b40821;
  0xf61e2562; 0xc040b340; 0x265e5a51; 0xe9b6c7aa; 0xd62f105d; 0x02441453; 0xd8a1e681; 0xe7d3fbc8;
  0x21e1cde6; 0xc33707d6; 0xf4d50d87; 0x455a14ed; 0xa9e3e905; 0xfcefa3f8; 0x676f02d9; 0x8d2a4c8a;
  0xfffa3942; 0x8771f681; 0x6d9d6122; 0xfde5380c; 0xa4beea44; 0x4bdecfa9; 0xf6bb4b60; 0xbebfbc70;
  0x289b7ec6; 0xeaa127fa; 0xd4ef3085; 0x04881d05; 0xd9d4d039; 0xe6db99e5; 0x1fa27cf8; 0xc4ac5665;
  0xf4292244; 0x432aff97; 0xab9423a7; 0xfc93a039; 0x655b59c3; 0x8f0ccc92; 0xffeff47d; 0x85845dd1;
  0x6fa87e4f; 0xfe2ce6e0; 0xa3014314; 0x4e0811a1; 0xf7537e82; 0xbd3af235; 0x2ad7d2bb; 0xeb86d391 ].

(** Rotation amounts, per round. *)
Definition S : list Z :=
[ 7; 12; 17; 22; 7; 12; 17; 22; 7; 12; 17; 22; 7; 12; 17; 22;
  5;  9; 14; 20; 5;  9; 14; 20; 5;  9; 14; 20; 5;  9; 14; 20;
  4; 11; 16; 23; 4; 11; 16; 23; 4; 11; 16; 23; 4; 11; 16; 23;
  6; 10; 15; 21; 6; 10; 15; 21; 6; 10; 15; 21; 6; 10; 15; 21 ].

Record state := State { sa : Z; sb : Z; sc : Z; sd : Z }.

Definition init : state :=
  State 0x67452301 0xefcdab89 0x98badcfe 0x10325476.

(** Operation [i] of the 64 on the sixteen words [X] of a block. *)
Definition step (X : list Z) (st : state) (i : nat) : state :=
  let '(State a b c d) := st in
  let '(f, g) :=
    if (i <? 16)%nat then (F b c d, i)
    else if (i <? 32)%nat then (G b c d, (5 * i + 1) mod 16)%nat
    else if (i <? 48)%nat then (H b c d, (3 * i + 5) mod 16)%nat
    else (I b c d, (7 * i) mod 16)%nat in
  let t := add32 (add32 (add32 a f) (nth i T 0)) (nth g X 0) in
  State d (add32 b (rotl32 t (nth i S 0))) b c.

(** The little-endian word of four bytes. *)
Definition word (bs : list Z) : Z :=
  nth 0 bs 0 + 2 ^ 8 * nth 1 bs 0 + 2 ^ 16 * nth 2 bs 0 + 2 ^ 24 * nth 3 bs 0.

Definition words (block : list Z) : list Z :=
  map (fun j => word (firstn 4 (skipn (4 * j) block))) (seq 0 16).

Definition block (st : state) (bs : list Z) : state :=
  let '(State a b c d) := fold_left (step (words bs)) (seq 0 64) st in
  State (add32 (sa st) a) (add32 (sb st) b) (add32 (sc st) c) (add32 (sd st) d).

(** One block per 64 bytes; [fuel] bounds the number of blocks. *)
Fixpoint blocks (fuel : nat) (st : state) (bs : list Z) : state :=
  match fuel, bs with
  | O, _ | _, [] => st
  | Datatypes.S fuel, _ => blocks fuel (block st (firstn 64 bs)) (skipn 64 bs)
  end.

Definition le_bytes (n : nat) (x : Z) : list Z :=
  map (fun j => Z.shiftr x (8 * Z.of_nat j) mod 2 ^ 8) (seq 0 n).

(** A 1 bit, zeros up to 56 modulo 64, then the bit length on 8 bytes. *)
Definition pad (msg : list Z) : list Z :=
  let len := Z.of_nat (length msg) in
  let zeros := Z.to_nat ((55 - len) mod 64) in
  msg ++ [0x80] ++ repeat 0 zeros ++ le_bytes 8 ((8 * len) mod 2 ^ 64).

Definition digest (msg : list Z) : list Z :=
  let padded := pad msg in
  let '(State a b c d) := blocks (length padded) init padded in
  le_bytes 4 a ++ le_bytes 4 b ++ le_bytes 4 c ++ le_bytes 4 d.

Definition hexdigit (n : Z) : ascii :=
  nth (Z.to_nat n) (list_ascii_of_string "0123456789abcdef") "0"%char.

Definition bytesToHex (bs : list Z) : string :=
  string_of_list_ascii
    (flat_map (fun b => [hexdigit (Z.shiftr b 4); hexdigit (Z.land b 0xf)]) bs).

Definition stringToBytes (s : string) : list Z :=
  map (fun c => Z.of_N (N_of_ascii c)) (list_ascii_of_string s).

Definition md5 (message : string) : string :=
  bytesToHex (digest (stringToBytes message)).

End MD5.

(** [s.toUpperCase()], on the ASCII letters. *)
Definition upper_ascii (c : ascii) : ascii :=
  let n := N_of_ascii c in
  if ((97 <=? n) && (n <=? 122))%N then ascii_of_N (n - 32) else c.

Fixpoint toUpperCase (s : string) : string :=
  match s with
  | EmptyString => EmptyString
  | String c rest => String (upper_ascii c) (toUpperCase rest)
  end.

Definition is_byte (b : Z) : Prop := (0 <= b < 256)%Z.

(** The digits of uppercase hexadecimal. *)
Definition upper_hex_digit (c : ascii) : bool :=
  existsb (Ascii.eqb c) (list_ascii_of_string "0123456789ABCDEF").

(** ** The client *)

Record OKEX := {
  api_key : value;
  secret : value;
  server : value;
  timeout : value
}.

(** [new OKEX(api_key, secret, server, timeout)] *)
Definition new_OKEX (api_key secret server timeout : value) : OKEX :=
  {| api_key := api_key;
     secret := secret;
     server := js_or server (JStr "https://www.okex.com");
     timeout := js_or timeout (JNum 20000) |}.

(** [OKEX.prototype.signMessage] *)
Definition signMessage (self : OKEX) (params : value) : string :=
  let formattedParams := formatParameters params in
  let formattedParams :=
    formattedParams +:+ ("&secret_key=" +:+ to_string (secret self)) in
  toUpperCase (MD5.md5 formattedParams).

(** ** Errors

    [new VError(cause, fmt, args...)]: the message is what [sprintf]
    (the [extsprintf] module [verror] is built on) makes of the format
    and the arguments, followed by the cause's message.  [sprintf] throws
    on a directive it has no argument for, so the constructor can throw.
    The source sets [name] and [info] on some errors afterwards. *)
Record VError := {
  message : string;
  name : value;
  info : value
}.

(** What a call that can throw leaves. *)
Inductive result (A : Type) : Type :=
| Ok (a : A)
| Throw (exn : string).

Arguments Ok {A} a.
Arguments Throw {A} exn.

(** [util.format], which builds the request descriptions: each [%s]
    takes the next argument (the formats of the source hold no other
    directive and as many [%s] as arguments). *)
Fixpoint util_format (fmt : string) (args : list value) : string :=
  match fmt with
  | String "%" (String "s" rest) =>
      match args with
      | a :: args' => to_string a +:+ util_format rest args'
      | [] => String "%" (String "s" (util_format rest []))
      end
  | String c rest => String c (util_format rest args)
  | EmptyString => EmptyString
  end.

(** A directive of [sprintf]: [%], flags, width, precision, ignored
    length modifiers, conversion. *)
Record directive := {
  flags : string;
  width : nat;
  precision : bool;
  conversion : ascii
}.

Definition one_of (chars : string) (c : ascii) : bool :=
  existsb (Ascii.eqb c) (list_ascii_of_string chars).

Definition is_flag : ascii -> bool := one_of "'-+ #0".
Definition is_digit : ascii -> bool := one_of "0123456789".
Definition is_nonzero_digit : ascii -> bool := one_of "123456789".
Definition is_length : ascii -> bool := one_of "lhjztL".
Definition is_conversion : ascii -> bool := one_of "diouxXfFeEgGaAcCsSp%jr".

(** The longest prefix whose characters satisfy [f], and the rest. *)
Fixpoint span (f : ascii -> bool) (s : string) : string * string :=
  match s with
  | String c rest =>
      if f c then let '(taken, others) := span f rest in (String c taken, others)
      else (EmptyString, s)
  | EmptyString => (EmptyString, EmptyString)
  end.

Definition number_of (digits : string) : nat :=
  fold_left (fun n c => (10 * n + (nat_of_ascii c - 48))%nat)
    (list_ascii_of_string digits) 0%nat.

(** Length modifiers up to the first conversion character. *)
Fixpoint conversion_of (s : string) : option (ascii * string) :=
  match s with
  | String c rest =>
      if is_conversion c then Some (c, rest)
      else if is_length c then conversion_of rest
      else None
  | EmptyString => None
  end.

(** The directive that starts after a [%], and what follows it. *)
Definition directive_of (s : string) : option (directive * string) :=
  let '(fl, s) := span is_flag s in
  let '(w, s) :=
    match s with
    | String c _ => if is_nonzero_digit c then span is_digit s else (EmptyString, s)
    | EmptyString => (EmptyString, s)
    end in
  let '(p, s) :=
    match s with
    | String "." (String c rest) =>
        if is_nonzero_digit c then (true, snd (span is_digit rest)) else (false, s)
    | _ => (false, s)
    end in
  match conversion_of s with
  | Some (c, rest) =>
      Some ({| flags := fl; width := number_of w; precision := p; conversion := c |},
            rest)
  | None => None
  end.

(** The leftmost match of the pattern (text without [%], then a
    directive) in [s]: the text, the directive, and the length of the
    whole match.  A [%] that starts no directive cannot be part of a
    match, so the text of a later match begins after it. *)
Fixpoint find (text : string) (s : string) : option (string * directive * nat) :=
  match s with
  | String c rest =>
      if Ascii.eqb c "%" then
        match directive_of rest with
        | Some (d, after) =>
            Some (text, d,
                  String.length text + 1 + (String.length rest - String.length after))%nat
        | None => find EmptyString rest
        end
      else find (text +:+ String c EmptyString) rest
  | EmptyString => None
  end.

Fixpoint substring_from (n : nat) (s : string) : string :=
  match n, s with
  | S n, String _ rest => substring_from n rest
  | _, _ => s
  end.

Fixpoint repeated (c : ascii) (n : nat) : string :=
  match n with
  | O => EmptyString
  | S n => String c (repeated c n)
  end.

(** Padding to the width, counted in UTF-16 code units. *)
Definition pad (d : directive) (str : string) : string :=
  let chr := if one_of (flags d) "0" then "0"%char else " "%char in
  let fill := repeated chr (width d - List.length (utf16 str))%nat in
  if one_of (flags d) "-" then str +:+ fill else fill +:+ str.

Definition prepend (text : string) (r : result string) : result string :=
  match r with
  | Ok s => Ok (text +:+ s)
  | Throw exn => Throw exn
  end.

(** The loop of [sprintf].  After a match the format is cut by the
    length of the match, counted from the start of the format also when
    the match starts later, behind a percent sign that starts no
    directive (the length is that of the bytes, which is the number of
    code units while the text is ASCII).  A directive other than [%%]
    takes the next argument and throws when there is none.  With an
    argument, [%s] prints its [toString()].  The conversions [d], [f],
    [x], [j] and [r] print an argument in ways that are not modelled;
    they are given as throwing, like the conversions [sprintf] does not
    know.  No call of the source reaches them: its literal formats hold
    [%s] alone, and the one format that is not a literal is printed
    without arguments. *)
Fixpoint sprintf_loop (fuel : nat) (argn : Z) (fmt : string) (args : list value)
  : result string :=
  match fuel with
  | O => Ok fmt
  | S fuel =>
      match find EmptyString fmt with
      | None => Ok fmt
      | Some (text, d, len) =>
          let fmt := substring_from len fmt in
          if Ascii.eqb (conversion d) "%" then
            prepend (text +:+ "%") (sprintf_loop fuel argn fmt args)
          else
            match args with
            | [] => Throw "Error: too few args to sprintf"
            | arg :: args =>
                if existsb (one_of "' #") (list_ascii_of_string (flags d)) then
                  Throw ("Error: unsupported flags: " +:+ flags d)
                else if precision d then
                  Throw "Error: non-zero precision not supported"
                else if Ascii.eqb (conversion d) "s" then
                  match arg with
                  | JUndefined | JNull =>
                      Throw ("Error: argument " +:+ decimal argn
                             +:+ ": attempted to print undefined or null as a string")
                  | _ =>
                      prepend (text +:+ pad d (to_string arg))
                        (sprintf_loop fuel (argn + 1)%Z fmt args)
                  end
                else
                  Throw ("Error: unsupported conversion: "
                         +:+ String (conversion d) EmptyString)
            end
      end
  end.

Definition sprintf (fmt : string) (args : list value) : result string :=
  sprintf_loop (S (String.length fmt)) 1 fmt args.

(** [VError] prints [null] and [undefined] arguments by their names. *)
Definition printable (a : value) : value :=
  match a with
  | JUndefined => JStr "undefined"
  | JNull => JStr "null"
  | _ => a
  end.

Definition new_VError (cause : option string) (fmt : string) (args : list value)
  : result VError :=
  match sprintf fmt (map printable args) with
  | Ok shortmessage =>
      Ok {| message :=
              match cause with
              | Some m => shortmessage +:+ ": " +:+ m
              | None => shortmessage
              end;
            name := JStr "VError";
            info := JUndefined |}
  | Throw exn => Throw exn
  end.

(** The error a statement [var error = new VError(...)] leaves in
    [error].  The formats of the sites that use it are literals whose
    directives are [%s] with an argument each, so the constructor
    returns there (lemmas [*_constructed] below); the exception stands
    for the case that does not arise. *)
Definition constructed (r : result VError) : VError :=
  match r with
  | Ok e => e
  | Throw exn => {| message := exn; name := JStr "Error"; info := JUndefined |}
  end.

Definition set_name (n : value) (e : VError) : VError :=
  {| message := message e; name := n; info := info e |}.

Definition set_info (i : value) (e : VError) : VError :=
  {| message := message e; name := name e; info := i |}.

(** The error a failed transport hands to the handler. *)
Record NodeError := {
  err_message : string;
  err_code : value
}.

(** ** Effects

    A call of the client leaves a trace: what it logged, the requests it
    handed to the [request] package, and the calls of the callback. *)
Record Options := {
  opt_url : string;
  opt_method : string;
  opt_headers : value;
  opt_timeout : value;
  opt_qs : value;
  opt_form : value;
  opt_json : value
}.

Inductive event : Type :=
| ConsoleLog (v : value)
| Request (options : Options) (requestDesc : string) (callback : value)
| Callback (error : option VError) (data : value).

Inductive completion : Type :=
| Returned
| Thrown (exn : string).

Definition outcome : Type := list event * completion.

(** [callback(error, data)]; calling what is not a function throws. *)
Definition call (callback : value) (error : option VError) (data : value)
  : outcome :=
  if is_function callback then ([Callback error data], Returned)
  else ([], Thrown "TypeError: callback is not a function").

(** What the transport answers: [(err)] or [(null, response, data)]. *)
Inductive reply : Type :=
| Failed (err : NodeError)
| Responded (statusCode : Z) (data : value).

(** [JSON.parse] either returns or throws a [SyntaxError]. *)
Inductive parsed : Type :=
| Parsed (v : value)
| SyntaxError (msg : string).

(** The built-ins of the host the client runs on. *)
Class Host := {
  JSON_stringify : value -> value;
  JSON_parse : string -> parsed
}.

Definition headers : value :=
  obj [ ("contentType", JStr "application/x-www-form-urlencoded");
        ("User-Agent", JStr "OKEX JavaScript API Wrapper") ].

Definition errorCodes : value :=
  obj [ ("10000", JStr "Required parameter can not be null");
        ("10001", JStr "Requests are too frequent");
        ("10002", JStr "System Error");
        ("10003", JStr "Restricted list request, please try again later");
        ("10004", JStr "IP restriction");
        ("10005", JStr "Key does not exist");
        ("10006", JStr "User does not exist");
        ("10007", JStr "Signatures do not match");
        ("10008", JStr "Illegal parameter");
        ("10009", JStr "Order does not exist");
        ("10010", JStr "Insufficient balance");
        ("10011", JStr "Order is less than minimum trade amount");
        ("10012", JStr "Unsupported symbol (not btc_usd or ltc_usd)");
        ("10013", JStr "This interface only accepts https requests");
        ("10014", JStr "Order price must be between 0 and 1,000,000");
        ("10015", JStr "Order price differs from current market price too much");
        ("10016", JStr "Insufficient coins balance");
        ("10017", JStr "API authorization error");
        ("10026", JStr "Loan (including reserved loan) and margin cannot be withdrawn");
        ("10027", JStr "Cannot withdraw within 24 hrs of authentication information modification");
        ("10028", JStr "Withdrawal amount exceeds daily limit");
        ("10029", JStr "Account has unpaid loan, please cancel/pay off the loan before withdraw");
        ("10031", JStr "Deposits can only be withdrawn after 6 confirmations");
        ("10032", JStr "Please enabled phone/google authenticator");
        ("10033", JStr "Fee higher than maximum network transaction fee");
        ("10034", JStr "Fee lower than minimum network transaction fee");
        ("10035", JStr "Insufficient BTC/LTC");
        ("10036", JStr "Withdrawal amount too low");
        ("10037", JStr "Trade password not set");
        ("10040", JStr "Withdrawal cancellation fails");
        ("10041", JStr "Withdrawal address not approved");
        ("10042", JStr "Admin password error");
        ("10100", JStr "User account frozen");
        ("10216", JStr "Non-available API");
        ("20001", JStr "用户不存在");
        ("20002", JStr "用户被冻结");
        ("20003", JStr "用户被爆仓冻结");
        ("20004", JStr "合约账户被冻结");
        ("20005", JStr "用户合约账户不存在");
        ("20006", JStr "必填参数为空");
        ("20007", JStr "参数错误");
        ("20008", JStr "合约账户余额为空");
        ("20009", JStr "虚拟合约状态错误");
        ("20010", JStr "合约风险率信息不存在");
        ("20011", JStr "10倍/20倍杠杆开BTC前保证金率低于90%/80%，10倍/20倍杠杆开LTC前保证金率低于80%/60%");
        ("20012", JStr "10倍/20倍杠杆开BTC后保证金率低于90%/80%，10倍/20倍杠杆开LTC后保证金率低于80%/60%");
        ("20013", JStr "暂无对手价");
        ("20014", JStr "系统错误");
        ("20015", JStr "订单信息不存在");
        ("20016", JStr "平仓数量是否大于同方向可用持仓数量");
        ("20017", JStr "非本人操作");
        ("20018", JStr "下单价格高于前一分钟的103%或低于97%");
        ("20019", JStr "该IP限制不能请求该资源");
        ("20020", JStr "密钥不存在");
        ("20021", JStr "指数信息不存在");
        ("20022", JStr "接口调用错误（全仓模式调用全仓接口，逐仓模式调用逐仓接口）");
        ("20023", JStr "逐仓用户");
        ("20024", JStr "sign签名不匹配");
        ("20025", JStr "杠杆比率错误");
        ("20026", JStr "API鉴权错误");
        ("20027", JStr "无交易记录");
        ("20028", JStr "合约不存在");
        ("20029", JStr "转出金额大于可转金额");
        ("20030", JStr "账户存在借款");
        ("20038", JStr "根据相关法律，您所在的国家或地区不能使用该功能。");
        ("20049", JStr "用户请求接口过于频繁");
        ("20061", JStr "合约相同方向只支持一个杠杆，若有10倍多单，就不能再下20倍多单");
        ("21020", JStr "合约交割中，无法下单");
        ("21021", JStr "合约清算中，无法下单");
        ("503", JStr "Too many requests (Http)") ].

(** [mapErrorMessage]: the message of an error code. *)
Definition mapErrorMessage (error_code : value) : value :=
  if negb (truthy (get errorCodes (to_string error_code))) then
    JStr ("Unknown OKEX error code: " +:+ to_string error_code)
  else
    get errorCodes (to_string error_code).

(** ** Requests *)

Definition dquote : string := String (ascii_of_nat 34) EmptyString.
Definition newline : string := String (ascii_of_nat 10) EmptyString.

(** The errors of the source, one definition per [new VError] site. *)
Definition credentials_error (functionName : string) : VError :=
  constructed
    (new_VError None
       "%s must provide api_key and secret to make this API request."
       [JStr functionName]).

Definition params_error (functionName : string) (params : value) : VError :=
  constructed
    (new_VError None
       "%s second parameter %s must be an object. If no params then pass an empty object {}"
       [JStr functionName; params]).

Definition private_callback_error (functionName : string) : VError :=
  constructed
    (new_VError None "%s third parameter needs to be a callback function"
       [JStr functionName]).

Definition public_callback_error (functionName : string) : VError :=
  constructed
    (new_VError None
       "%s third parameter needs to be a callback function with err and data parameters"
       [JStr functionName]).

Definition transport_error (functionName requestDesc : string) (err : NodeError)
  : VError :=
  set_name (err_code err)
    (constructed
       (new_VError (Some (err_message err)) "%s failed %s"
          [JStr functionName; JStr requestDesc])).

Definition http_error (functionName requestDesc : string) (statusCode : Z)
  : VError :=
  set_name (JNum statusCode)
    (constructed
       (new_VError None "%s HTTP status code %s returned from %s"
          [JStr functionName; JNum statusCode; JStr requestDesc])).

(** [new VError(e, 'Could not parse response from server: ' + data)]: the
    response's text is part of the format, so this call can throw. *)
Definition new_parse_error (e : string) (data : value) : result VError :=
  new_VError (Some e)
    ("Could not parse response from server: " +:+ to_string data) [].

Definition unparsed_error (functionName requestDesc : string) (data : value)
  : VError :=
  constructed
    (new_VError None
       ("%s could not parse response from %s" +:+ newline +:+ "Response: %s")
       [JStr functionName; JStr requestDesc; data]).

Definition exchange_error (functionName requestDesc : string)
  (error_code : value) : VError :=
  let errorMessage := mapErrorMessage error_code in
  set_name error_code
    (set_info errorMessage
       (constructed
          (new_VError None
             ("%s %s returned error code %s, message: " +:+ dquote +:+ "%s" +:+ dquote)
             [JStr functionName; JStr requestDesc; error_code; errorMessage]))).

(** [executeRequest] hands the request and its handler to the transport. *)
Definition executeRequest (options : Options) (requestDesc : string)
  (callback : value) : outcome :=
  ([Request options requestDesc callback], Returned).

Section Client.

Context `{Host}.

(** The [if]/[else if] chain of the handler: the error and the
    [returnObject] it leaves, or the exception that ends the handler
    when the parse error cannot be built. *)
Definition classify (options : Options) (requestDesc : string) (r : reply)
  : result (option VError * value) :=
  let functionName := "OKEX.executeRequest()" in
  match r with
  | Failed err =>
      Ok (Some (transport_error functionName requestDesc err), JUndefined)
  | Responded statusCode data =>
      if ((statusCode <? 200) || (statusCode >=? 300))%Z then
        Ok (Some (http_error functionName requestDesc statusCode), data)
      else if truthy (opt_form options) then
        match JSON_parse (to_string data) with
        | Parsed returnObject => Ok (None, returnObject)
        | SyntaxError e =>
            match new_parse_error e data with
            | Ok error => Ok (Some error, data)
            | Throw exn => Throw exn
            end
        end
      else if truthy (opt_json options) && negb (isObject data) then
        Ok (Some (unparsed_error functionName requestDesc data), data)
      else Ok (None, data)
  end.

(** The [error_code] test that follows the chain. *)
Definition override (requestDesc : string) (c : option VError * value)
  : option VError * value :=
  let functionName := "OKEX.executeRequest()" in
  let '(error, returnObject) := c in
  let error :=
    if has returnObject "error_code" then
      Some (exchange_error functionName requestDesc
              (get returnObject "error_code"))
    else error in
  (error, returnObject).

(** The function [executeRequest] passes to [request]: it ends by
    calling the callback, unless the chain threw. *)
Definition handler (options : Options) (requestDesc : string)
  (callback : value) (r : reply) : outcome :=
  match classify options requestDesc r with
  | Ok c =>
      let '(error, returnObject) := override requestDesc c in
      call callback error returnObject
  | Throw exn => ([], Thrown exn)
  end.

(** The arguments the handler has for the callback.  When the chain
    throws there are none, and the callback is not called: that case is
    given as [(None, JUndefined)] and told apart by [raises]. *)
Definition normalize (options : Options) (requestDesc : string) (r : reply)
  : option VError * value :=
  match classify options requestDesc r with
  | Ok c => override requestDesc c
  | Throw _ => (None, JUndefined)
  end.

Definition raises (options : Options) (requestDesc : string) (r : reply)
  : bool :=
  match classify options requestDesc r with
  | Ok _ => false
  | Throw _ => true
  end.

(** [OKEX.prototype.privateRequest] *)
Definition privateRequest (self : OKEX) (method : string)
  (params callback : value) : outcome :=
  let functionName := "OKEX.privateRequest()" in
  if negb (truthy (api_key self)) || negb (truthy (secret self)) then
    call callback (Some (credentials_error functionName)) JUndefined
  else if negb (isObject params) then
    call callback (Some (params_error functionName params)) JUndefined
  else if negb (truthy callback) || negb (is_function callback) then
    call callback (Some (private_callback_error functionName)) JUndefined
  else
    let params := set_prop "api_key" (api_key self) params in
    let logged := ConsoleLog params in
    let params := set_prop "sign" (JStr (signMessage self params)) params in
    let options :=
      {| opt_url := to_string (server self) +:+ "/api/v1/" +:+ method +:+ ".do";
         opt_method := "POST";
         opt_headers := headers;
         opt_timeout := JUndefined;
         opt_qs := JUndefined;
         opt_form := params;
         opt_json := JUndefined |} in
    let requestDesc :=
      util_format "%s request to url %s with method %s and params %s"
        [JStr (opt_method options); JStr (opt_url options); JStr method;
         JSON_stringify params] in
    let '(events, c) := executeRequest options requestDesc callback in
    (logged :: events, c).

(** [OKEX.prototype.publicRequest] *)
Definition publicRequest (self : OKEX) (method : string)
  (params callback : value) : outcome :=
  let functionName := "OKEX.publicRequest()" in
  if negb (isObject params) then
    call callback (Some (params_error functionName params)) JUndefined
  else if negb (truthy callback) || negb (is_function callback) then
    call callback (Some (public_callback_error functionName)) JUndefined
  else
    let url := to_string (server self) +:+ "/api/v1/" +:+ method +:+ ".do" in
    let options :=
      {| opt_url := url;
         opt_method := "GET";
         opt_headers := headers;
         opt_timeout := timeout self;
         opt_qs := params;
         opt_form := JUndefined;
         opt_json := obj [] |} in
    let requestDesc :=
      util_format "%s request to url %s with parameters %s"
        [JStr (opt_method options); JStr (opt_url options);
         JSON_stringify params] in
    executeRequest options requestDesc callback.

(** The transport answers every request once; the whole trace of a call
    is what it did itself followed by what the handlers did. *)
Definition respond (network : Options -> reply) (e : event) : list event :=
  match e with
  | Request options requestDesc callback =>
      fst (handler options requestDesc callback (network options))
  | _ => []
  end.

Definition trace (network : Options -> reply) (o : outcome) : list event :=
  fst o ++ flat_map (respond network) (fst o).

End Client.

(** The requests and the callback calls of a list of events. *)
Definition requests (events : list event) : list Options :=
  flat_map (fun e => match e with Request o _ _ => [o] | _ => [] end) events.

Definition callbacks (events : list event) : list (option VError * value) :=
  flat_map (fun e => match e with Callback e d => [(e, d)] | _ => [] end) events.

(** The parameter mapping a request carries: the form of a POST, the query
    of a GET. *)
Definition wire_params (o : Options) : value :=
  if truthy (opt_form o) then opt_form o else opt_qs o.

(** A text without a percent sign, which [sprintf] leaves as it is. *)
Definition plain (s : string) : Prop :=
  ~ In "%"%char (list_ascii_of_string s).

(** The replies for which the handler builds no parse error from a text
    with a percent sign: every reply to a public request, and to a
    private one a failed transport, a status outside 2xx, a body that
    parses, or one without a percent sign. *)
Definition settles `{Host} (options : Options) (r : reply) : Prop :=
  match r with
  | Failed _ => True
  | Responded statusCode data =>
      (200 <= statusCode < 300)%Z ->
      truthy (opt_form options) = true ->
      forall e, JSON_parse (to_string data) = SyntaxError e ->
                plain (to_string data)
  end.

(** The handler reports no error: the transport answered with a status in
    [200, 300), the body is structured data (parsed from text for a form
    request, already an object for a json request) and holds no
    [error_code]. *)
Definition succeeds `{Host} (options : Options) (r : reply) : Prop :=
  match r with
  | Failed _ => False
  | Responded statusCode data =>
      (200 <= statusCode < 300)%Z
      /\ if truthy (opt_form options) then
           exists v, JSON_parse (to_string data) = Parsed v
                     /\ has v "error_code" = false
         else
           (truthy (opt_json options) = true -> isObject data = true)
           /\ has data "error_code" = false
  end.

(** What a call hands to the transport. *)
Definition sent_params (o : outcome) : list value :=
  map wire_params (requests (fst o)).

(** A call issues one request whose mapping lacks the key [k]. *)
Definition omits (o : outcome) (k : string) : Prop :=
  exists p, sent_params o = [p] /\ has p k = false.

(** A call issues one request whose mapping holds [v] under the key [k]. *)
Definition sends (o : outcome) (k : string) (v : value) : Prop :=
  exists p, sent_params o = [p] /\ has p k = true /\ get p k = v.

(** ** Endpoint methods *)

(** [if (c) params.k = v] *)
Definition set_if (c : bool) (k : string) (v : value) (params : value) : value :=
  if c then set_prop k v params else params.

(** [v == '-1']: a string is compared as it is, a number by its value, an
    object by its string; nothing else equals a string. *)
Definition eq_minus_one (v : value) : bool :=
  match v with
  | JStr s => String.eqb s "-1"
  | JNum n => (n =? -1)%Z
  | JDec s p =>
      match Number.to_double s p with
      | Number.Finite true m e => (m =? 2 ^ 52)%Z && (e =? -52)%Z
      | _ => false
      end
  | JObj _ _ => String.eqb (to_string v) "-1"
  | _ => false
  end.

Definition handleContractType (params contract_type : value) : value :=
  let params := set_prop "contract_type" (JStr "quarter") params in
  set_if (truthy contract_type) "contract_type" contract_type params.

Section Facade.

Context `{Host}.
Variable self : OKEX.

Definition getTicker (callback symbol : value) : outcome :=
  publicRequest self "ticker" (obj [("symbol", symbol)]) callback.

Definition getDepth (callback symbol size merge : value) : outcome :=
  let params :=
    obj [("symbol", symbol); ("size", JNum 200); ("merge", JNum 1)] in
  let params := set_if (negb (isUndefined size)) "size" size params in
  let params := set_if (negb (isUndefined merge)) "merge" merge params in
  publicRequest self "depth" params callback.

Definition getTrades (callback symbol since : value) : outcome :=
  let params := obj [("symbol", symbol)] in
  let params := set_if (truthy since) "since" since params in
  publicRequest self "trades" params callback.

Definition getKline (callback symbol type size since : value) : outcome :=
  let params := obj [("symbol", symbol)] in
  let params := set_if (truthy type) "type" type params in
  let params := set_if (truthy size) "size" size params in
  let params := set_if (truthy since) "since" since params in
  publicRequest self "kline" params callback.

Definition getLendDepth (callback symbol : value) : outcome :=
  publicRequest self "kline" (obj [("symbol", symbol)]) callback.

Definition getUserInfo (callback : value) : outcome :=
  privateRequest self "userinfo" (obj []) callback.

Definition addTrade (callback symbol type amount price : value) : outcome :=
  let params := obj [("symbol", symbol); ("type", type)] in
  let params := set_if (truthy amount) "amount" amount params in
  let params := set_if (truthy price) "price" price params in
  privateRequest self "trade" params callback.

Definition addBatchTrades (callback symbol type orders : value) : outcome :=
  privateRequest self "batch_trade"
    (obj [("symbol", symbol); ("type", type); ("orders_data", orders)])
    callback.

Definition cancelOrder (callback symbol order_id : value) : outcome :=
  privateRequest self "cancel_order"
    (obj [("symbol", symbol); ("order_id", order_id)]) callback.

Definition getOrderInfo (callback symbol order_id : value) : outcome :=
  privateRequest self "order_info"
    (obj [("symbol", symbol); ("order_id", order_id)]) callback.

Definition getOrdersInfo (callback symbol type order_id : value) : outcome :=
  privateRequest self "orders_info"
    (obj [("symbol", symbol); ("type", type); ("order_id", order_id)])
    callback.

Definition getAccountRecords
  (callback symbol type current_page page_length : value) : outcome :=
  privateRequest self "account_records"
    (obj [("symbol", symbol); ("type", type);
          ("current_page", current_page); ("page_length", page_length)])
    callback.

Definition getTradeHistory (callback symbol since : value) : outcome :=
  privateRequest self "trade_history"
    (obj [("symbol", symbol); ("since", since)]) callback.

Definition getOrderHistory
  (callback symbol status current_page page_length : value) : outcome :=
  privateRequest self "order_history"
    (obj [("symbol", symbol); ("status", status);
          ("current_page", current_page); ("page_length", page_length)])
    callback.

Definition addWithdraw
  (callback symbol chargefee trade_pwd withdraw_address withdraw_amount : value)
  : outcome :=
  privateRequest self "withdraw"
    (obj [("symbol", symbol); ("chargefee", chargefee);
          ("trade_pwd", trade_pwd); ("withdraw_address", withdraw_address);
          ("withdraw_amount", withdraw_amount)])
    callback.

Definition cancelWithdraw (callback symbol withdraw_id : value) : outcome :=
  privateRequest self "cancel_withdraw"
    (obj [("symbol", symbol); ("withdraw_id", withdraw_id)]) callback.

Definition getFutureTicker (callback symbol contract_type : value) : outcome :=
  let params :=
    obj [("symbol", symbol); ("contract_type", JStr "quarter")] in
  let params :=
    set_if (truthy contract_type) "contract_type" contract_type params in
  publicRequest self "future_ticker" params callback.

Definition getFutureDepth (callback symbol size merge contract_type : value)
  : outcome :=
  let params :=
    obj [("symbol", symbol); ("size", JNum 200); ("merge", JNum 1)] in
  let params := set_if (negb (isUndefined size)) "size" size params in
  let params := set_if (negb (isUndefined merge)) "merge" merge params in
  publicRequest self "future_depth"
    (handleContractType params contract_type) callback.

Definition getFutureTrades (callback symbol contract_type : value) : outcome :=
  let params := obj [("symbol", symbol)] in
  publicRequest self "future_trades"
    (handleContractType params contract_type) callback.

Definition getFutureIndex (callback symbol : value) : outcome :=
  let params := obj [("symbol", symbol)] in
  publicRequest self "future_index" params callback.

Definition getExchangeRate (callback : value) : outcome :=
  publicRequest self "exchange_rate" (obj []) callback.

Definition getFutureKline
  (callback symbol type size since contract_type : value) : outcome :=
  let params := obj [("symbol", symbol)] in
  let params := set_if (truthy type) "type" type params in
  let params := set_if (truthy size) "size" size params in
  let params := set_if (truthy since) "since" since params in
  publicRequest self "future_kline"
    (handleContractType params contract_type) callback.

Definition getFutureHoldAmount (callback symbol contract_type : value)
  : outcome :=
  let params := obj [("symbol", symbol)] in
  publicRequest self "future_hold_amount"
    (handleContractType params contract_type) callback.

Definition getFutureUserInfo (callback : value) : outcome :=
  privateRequest self "future_userinfo" (obj []) callback.

Definition getFuturePosition (callback symbol contract_type : value)
  : outcome :=
  let params := obj [("symbol", symbol)] in
  privateRequest self "future_position"
    (handleContractType params contract_type) callback.

Definition addFutureTrade
  (callback symbol type amount price match_price contract_type : value)
  : outcome :=
  let params := obj [("symbol", symbol); ("type", type)] in
  let params := set_if (truthy amount) "amount" amount params in
  let params := set_if (truthy price) "price" price params in
  let params := set_if (truthy match_price) "match_price" match_price params in
  privateRequest self "trade"
    (handleContractType params contract_type) callback.

Definition cancelFutureOrder (callback symbol order_id contract_type : value)
  : outcome :=
  let params := obj [("symbol", symbol); ("order_id", order_id)] in
  privateRequest self "cancel_order"
    (handleContractType params contract_type) callback.

Definition getFutureOrderInfo
  (callback symbol order_id status contract_type : value) : outcome :=
  let params := obj [("symbol", symbol); ("order_id", order_id)] in
  let params := set_if (eq_minus_one order_id) "status" status params in
  privateRequest self "future_order_info"
    (handleContractType params contract_type) callback.

Definition getFutureUserInfoFix (callback : value) : outcome :=
  privateRequest self "future_userinfo_4fix" (obj []) callback.

Definition getFuturePositionFix (callback symbol contract_type : value)
  : outcome :=
  let params := obj [("symbol", symbol)] in
  privateRequest self "future_position_4fix"
    (handleContractType params contract_type) callback.

End Facade.

(** ** Sample host and values, for the examples below *)

Definition body_10007 : string :=
  "{" +:+ dquote +:+ "error_code" +:+ dquote +:+ ":10007}".

(** A host for the examples: JSON over flat objects of scalars that need
    no escaping. *)
Definition sample_member (kv : string * value) : option string :=
  let render t := dquote +:+ fst kv +:+ dquote +:+ ":" +:+ t in
  match snd kv with
  | JNull => Some (render "null")
  | JBool _ | JNum _ | JDec _ _ => Some (render (to_string (snd kv)))
  | JStr t => Some (render (dquote +:+ t +:+ dquote))
  | _ => None
  end.

Definition sample_host : Host :=
  {| JSON_stringify := fun v =>
       match v with
       | JObj None props =>
           JStr ("{" +:+ String.concat "," (omap sample_member props) +:+ "}")
       | _ => JUndefined
       end;
     JSON_parse := fun s =>
       if String.eqb s body_10007 then Parsed (obj [("error_code", JNum 10007)])
       else if String.eqb s "{}" then Parsed (obj [])
       else if String.eqb s "null" then Parsed JNull
       else SyntaxError "Unexpected token in JSON" |}.

Definition sample_client : OKEX :=
  new_OKEX (JStr "key") (JStr "secret") JUndefined JUndefined.

Definition anonymous_client : OKEX :=
  new_OKEX JUndefined JUndefined JUndefined JUndefined.

Definition logResponse : value := func "function logResponse(err, data) { ... }".

(** * Properties *)

(** ** Strings and their order *)

Lemma append_nil_l (a : string) : EmptyString +:+ a = a.
Proof. reflexivity. Qed.

Lemma append_cons (x : ascii) (a b : string) :
  String x a +:+ b = String x (a +:+ b).
Proof. reflexivity. Qed.

Lemma append_assoc (a b c : string) : (a +:+ b) +:+ c = a +:+ (b +:+ c).
Proof.
  induction a as [|x a IH]; [reflexivity|].
  now rewrite !append_cons, IH.
Qed.

Lemma append_nil_r (a : string) : a +:+ EmptyString = a.
Proof.
  induction a as [|x a IH]; [reflexivity|].
  now rewrite append_cons, IH.
Qed.


Lemma ascii_compare_refl (a : ascii) : Ascii.compare a a = Eq.
Proof. unfold Ascii.compare. apply N.compare_refl. Qed.

Lemma string_compare_refl (a : string) : String.compare a a = Eq.
Proof.
  induction a as [|x a IH]; simpl; [reflexivity|].
  now rewrite ascii_compare_refl.
Qed.

Lemma string_compare_trans (a b c : string) :
  String.compare a b <> Gt -> String.compare b c <> Gt ->
  String.compare a c <> Gt.
Proof.
  revert b c. induction a as [|x a IH]; intros [|y b] [|z c]; simpl;
    try congruence.
  destruct (Ascii.compare x y) eqn:Hxy; try congruence;
    destruct (Ascii.compare y z) eqn:Hyz; try congruence.
  - apply Ascii.compare_eq_iff in Hxy, Hyz. subst.
    rewrite ascii_compare_refl. apply IH.
  - apply Ascii.compare_eq_iff in Hxy. subst. rewrite Hyz. congruence.
  - apply Ascii.compare_eq_iff in Hyz. subst. rewrite Hxy. congruence.
  - intros _ _.
    assert (Hlt : Ascii.compare x z = Lt).
    { unfold Ascii.compare in *. rewrite N.compare_lt_iff in *.
      eapply N.lt_trans; eassumption. }
    rewrite Hlt. congruence.
Qed.

Lemma units_compare_refl (xs : list N) : units_compare xs xs = Eq.
Proof.
  induction xs as [|x xs IH]; [reflexivity|].
  cbn [units_compare]. now rewrite N.compare_refl.
Qed.

Lemma units_compare_eq (xs ys : list N) : units_compare xs ys = Eq -> xs = ys.
Proof.
  revert ys. induction xs as [|x xs IH]; intros [|y ys]; cbn [units_compare];
    try discriminate; [reflexivity|].
  destruct (x ?= y)%N eqn:Hxy; try discriminate.
  apply N.compare_eq in Hxy. subst. intros Heq. f_equal. now apply IH.
Qed.

Lemma units_compare_antisym (xs ys : list N) :
  units_compare ys xs = CompOpp (units_compare xs ys).
Proof.
  revert ys. induction xs as [|x xs IH]; intros [|y ys]; cbn [units_compare];
    try reflexivity.
  rewrite (N.compare_antisym x y). destruct (x ?= y)%N; cbn [CompOpp]; auto.
Qed.

Lemma units_compare_trans (xs ys zs : list N) :
  units_compare xs ys <> Gt -> units_compare ys zs <> Gt ->
  units_compare xs zs <> Gt.
Proof.
  revert ys zs. induction xs as [|x xs IH]; intros [|y ys] [|z zs];
    cbn [units_compare]; try congruence.
  destruct (x ?= y)%N eqn:Hxy; try congruence;
    destruct (y ?= z)%N eqn:Hyz; try congruence.
  - apply N.compare_eq in Hxy, Hyz. subst. rewrite N.compare_refl. apply IH.
  - apply N.compare_eq in Hxy. subst. rewrite Hyz. congruence.
  - apply N.compare_eq in Hyz. subst. rewrite Hxy. congruence.
  - intros _ _. rewrite N.compare_lt_iff in *.
    rewrite (proj2 (N.compare_lt_iff x z)) by (eapply N.lt_trans; eassumption).
    congruence.
Qed.

Lemma units_compare_lt_trans (xs ys zs : list N) :
  units_compare xs ys = Lt -> units_compare ys zs = Lt ->
  units_compare xs zs = Lt.
Proof.
  intros Hxy Hyz.
  destruct (units_compare xs zs) eqn:Hxz; [|reflexivity|].
  - apply units_compare_eq in Hxz. subst zs.
    rewrite (units_compare_antisym xs ys), Hxy in Hyz. discriminate.
  - exfalso. apply (units_compare_trans xs ys zs); congruence.
Qed.

Lemma string_le_iff (a b : string) :
  string_le a b <-> code_unit_compare a b <> Gt.
Proof.
  unfold string_le.
  destruct (code_unit_compare a b); simpl; intuition congruence.
Qed.

Lemma utf16_ascii (s : string) :
  ascii_only s = true -> utf16 s = map N_of_ascii (list_ascii_of_string s).
Proof.
  unfold ascii_only, utf16.
  induction s as [|c s IH]; [reflexivity|].
  cbn [list_ascii_of_string forallb map utf16_from].
  intros [Hc Hs]%andb_prop. rewrite Hc. f_equal. now apply IH.
Qed.

Lemma units_compare_bytes (a b : string) :
  units_compare (map N_of_ascii (list_ascii_of_string a))
    (map N_of_ascii (list_ascii_of_string b))
  = String.compare a b.
Proof.
  revert b. induction a as [|c a IH]; intros [|d b]; try reflexivity.
  cbn [list_ascii_of_string map units_compare String.compare].
  unfold Ascii.compare. rewrite IH. reflexivity.
Qed.

(** On ASCII text the order of the code units is the order of the bytes. *)
Lemma code_unit_compare_ascii (a b : string) :
  ascii_only a = true -> ascii_only b = true ->
  code_unit_compare a b = String.compare a b.
Proof.
  intros Ha Hb. unfold code_unit_compare.
  rewrite (utf16_ascii a Ha), (utf16_ascii b Hb), units_compare_bytes.
  now destruct (String.compare a b).
Qed.

Lemma code_unit_compare_antisym (a b : string) :
  code_unit_compare b a = CompOpp (code_unit_compare a b).
Proof.
  unfold code_unit_compare.
  rewrite (units_compare_antisym (utf16 a) (utf16 b)).
  destruct (units_compare (utf16 a) (utf16 b)); cbn [CompOpp];
    [apply String.compare_antisym | reflexivity | reflexivity].
Qed.

#[global] Instance string_le_refl : Reflexive string_le.
Proof.
  intros a. apply string_le_iff. unfold code_unit_compare.
  rewrite units_compare_refl, string_compare_refl. congruence.
Qed.

#[global] Instance string_le_trans : Transitive string_le.
Proof.
  intros a b c. rewrite !string_le_iff. unfold code_unit_compare.
  destruct (units_compare (utf16 a) (utf16 b)) eqn:Hab; [| |congruence];
    destruct (units_compare (utf16 b) (utf16 c)) eqn:Hbc; try congruence.
  - apply units_compare_eq in Hab. rewrite Hab, Hbc.
    apply string_compare_trans.
  - apply units_compare_eq in Hab. rewrite Hab, Hbc. congruence.
  - apply units_compare_eq in Hbc. rewrite <- Hbc, Hab. congruence.
  - rewrite (units_compare_lt_trans _ _ _ Hab Hbc). congruence.
Qed.

#[global] Instance string_le_total : Total string_le.
Proof.
  intros a b. rewrite !string_le_iff, (code_unit_compare_antisym a b).
  destruct (code_unit_compare a b); cbn [CompOpp];
    [left | left | right]; congruence.
Qed.

#[global] Instance string_le_antisym : AntiSymm (=) string_le.
Proof.
  intros a b. rewrite !string_le_iff, (code_unit_compare_antisym a b).
  unfold code_unit_compare.
  destruct (units_compare (utf16 a) (utf16 b)) eqn:Hab; cbn [CompOpp];
    try congruence.
  destruct (String.compare a b) eqn:Hs; cbn [CompOpp]; try congruence.
  intros _ _. now apply String.compare_eq_iff.
Qed.

Lemma sort_sorted (xs : list string) : StronglySorted string_le (sort xs).
Proof. apply StronglySorted_merge_sort; apply _. Qed.

Lemma sort_perm (xs : list string) : sort xs ≡ₚ xs.
Proof. apply merge_sort_Permutation. Qed.

(** Any permutation of the keys sorts to the same list. *)
Lemma sort_unique (xs ys : list string) : xs ≡ₚ ys -> sort xs = sort ys.
Proof.
  intros Hp. apply (StronglySorted_unique string_le); try apply sort_sorted.
  rewrite !sort_perm. exact Hp.
Qed.

(** ** Objects *)

Lemma assoc_Some_elem (k : string) (v : value) (props : list (string * value)) :
  assoc k props = Some v -> (k, v) ∈ props.
Proof.
  induction props as [|[k' v'] props IH]; simpl; [discriminate|].
  destruct (String.eqb_spec k k') as [->|Hne].
  - intros [= ->]. left.
  - intros Hk. right. auto.
Qed.

Lemma assoc_None_notin (k : string) (props : list (string * value)) :
  assoc k props = None <-> k ∉ map fst props.
Proof.
  induction props as [|[k' v'] props IH]; simpl.
  - split; [intros _; apply not_elem_of_nil | reflexivity].
  - rewrite not_elem_of_cons. destruct (String.eqb_spec k k') as [->|Hne].
    + split; [discriminate | intros [Hk _]; congruence].
    + rewrite IH. tauto.
Qed.

Lemma elem_assoc_Some (k : string) (v : value) (props : list (string * value)) :
  NoDup (map fst props) -> (k, v) ∈ props -> assoc k props = Some v.
Proof.
  induction props as [|[k' v'] props IH]; simpl; intros Hnd Hin.
  - apply elem_of_nil in Hin. contradiction.
  - apply NoDup_cons in Hnd as [Hk' Hnd].
    apply elem_of_cons in Hin as [[= -> ->]|Hin].
    + now rewrite String.eqb_refl.
    + destruct (String.eqb_spec k k') as [->|Hne]; [|auto].
      exfalso. apply Hk'. apply list_elem_of_fmap. exists (k', v). auto.
Qed.

(** Objects with the same properties answer every lookup alike, whatever
    the insertion order. *)
Lemma assoc_perm (k : string) (p q : list (string * value)) :
  NoDup (map fst p) -> p ≡ₚ q -> assoc k p = assoc k q.
Proof.
  intros Hnd Hp.
  assert (Hndq : NoDup (map fst q)) by (rewrite <- Hp; exact Hnd).
  destruct (assoc k p) as [v|] eqn:Hkp.
  - symmetry. apply elem_assoc_Some; [exact Hndq|].
    rewrite <- Hp. now apply assoc_Some_elem.
  - symmetry. apply assoc_None_notin. apply assoc_None_notin in Hkp.
    intros Hin. apply Hkp. now rewrite Hp.
Qed.

(** ** The canonicalizer *)

Lemma formatParameters_loop_next (params : value) (ks : list string) (i : nat)
  (acc : string) :
  formatParameters_loop params ks (S i) acc
  = acc +:+ fold_right (fun k r => "&" +:+ pair_of params k +:+ r) EmptyString ks.
Proof.
  revert i acc. induction ks as [|k ks IH]; intros i acc.
  - cbn. now rewrite append_nil_r.
  - cbn [formatParameters_loop Nat.eqb negb fold_right]. rewrite IH.
    fold (pair_of params k). now rewrite !append_assoc.
Qed.

Lemma concat_amp (x : string) (xs : list string) :
  String.concat "&" (x :: xs)
  = x +:+ fold_right (fun y r => "&" +:+ y +:+ r) EmptyString xs.
Proof.
  revert x. induction xs as [|y xs IH]; intros x.
  - cbn. now rewrite append_nil_r.
  - change (String.concat "&" (x :: y :: xs))
      with (x +:+ "&" +:+ String.concat "&" (y :: xs)).
    now rewrite IH.
Qed.

Lemma formatParameters_loop_concat (params : value) (ks : list string) :
  formatParameters_loop params ks 0 EmptyString
  = String.concat "&" (map (pair_of params) ks).
Proof.
  destruct ks as [|k ks]; [reflexivity|].
  cbn [formatParameters_loop Nat.eqb negb map].
  rewrite formatParameters_loop_next, concat_amp, append_nil_l.
  fold (pair_of params k). f_equal.
  induction ks as [|k' ks IH]; [reflexivity|].
  cbn [fold_right map]. now rewrite IH.
Qed.

Lemma formatParameters_spec (params : value) :
  formatParameters params = canonical_string params.
Proof. apply formatParameters_loop_concat. Qed.

Example formatParameters_ba :
  formatParameters (obj [("b", JNum 2); ("a", JNum 1)]) = "a=1&b=2".
Proof. reflexivity. Qed.

Example formatParameters_not_encoded :
  formatParameters (obj [("note", JStr "a b&c=d/e"); ("id", JNum 7)])
  = "id=7&note=a b&c=d/e".
Proof. reflexivity. Qed.

Example formatParameters_undefined_value :
  formatParameters (obj [("symbol", JStr "btc_usd"); ("since", JUndefined)])
  = "since=undefined&symbol=btc_usd".
Proof. reflexivity. Qed.

(** Keys are compared by code units: a character beyond U+FFFF, whose
    first code unit is a surrogate, sorts before U+FF5E. *)
Example formatParameters_code_units :
  formatParameters (obj [("～", JNum 1); ("😀", JNum 2)]) = "😀=2&～=1".
Proof. vm_compute. reflexivity. Qed.

Example sort_code_units :
  sort ["b"; "a"; "～"; "😀"; "é"; "Z"; "10"; "9"]
  = ["10"; "9"; "Z"; "a"; "b"; "é"; "😀"; "～"].
Proof. vm_compute. reflexivity. Qed.

Example string_le_code_units : string_le "😀" "～" /\ ~ string_le "～" "😀".
Proof. split; [exact I | intros []]. Qed.

(** Numbers are printed as [Number.prototype.toString] prints them. *)
Example formatParameters_numbers :
  formatParameters
    (obj [("a", JNum (10 ^ 21)); ("b", JDec 21054 (-8));
          ("c", JNum (2 ^ 53 + 1)); ("d", JDec 5 (-1)); ("e", JNaN);
          ("f", JNum (10 ^ 20)); ("g", JDec 1 (-7)); ("h", JDec 1 400)])
  = "a=1e+21&b=0.00021054&c=9007199254740992&d=0.5&e=NaN&f=100000000000000000000&g=1e-7&h=Infinity".
Proof. vm_compute. reflexivity. Qed.

(** C1. For every parameter mapping, [formatParameters] returns the
    [key=value] pairs joined by [&], the keys in ascending lexicographic
    order (a sorted rearrangement of the mapping's keys; the order compares
    UTF-16 code units as [Array.prototype.sort] does, which on ASCII keys
    is the order of the bytes) and the values concatenated as they are;
    the empty mapping yields the empty string, and two mappings with the
    same key/value pairs yield the same string whatever their insertion
    order. *)
Theorem formatParameters_canonical :
  (forall params : value,
     formatParameters params
     = String.concat "&"
         (map (fun k => k +:+ "=" +:+ to_string (get params k))
              (sort (keys params))))
  /\ (forall params : value,
        StronglySorted string_le (sort (keys params))
        /\ sort (keys params) ≡ₚ keys params)
  /\ (forall a b : string,
        ascii_only a = true -> ascii_only b = true ->
        (string_le a b <-> String.leb a b = true))
  /\ (forall (params : value) (k s : string),
        get params k = JStr s -> pair_of params k = k +:+ "=" +:+ s)
  /\ formatParameters (obj []) = EmptyString
  /\ (forall (fn fn' : option string) (p q : list (string * value)),
        NoDup (map fst p) -> p ≡ₚ q ->
        formatParameters (JObj fn p) = formatParameters (JObj fn' q)).
Proof.
  split; [|split; [|split; [|split; [|split]]]].
  - intros params. apply formatParameters_spec.
  - intros params. split; [apply sort_sorted | apply sort_perm].
  - intros a b Ha Hb. rewrite string_le_iff, (code_unit_compare_ascii a b Ha Hb).
    unfold String.leb. destruct (String.compare a b); intuition congruence.
  - intros params k s Hk. unfold pair_of. now rewrite Hk.
  - reflexivity.
  - intros fn fn' p q Hnd Hp. rewrite !formatParameters_spec.
    unfold canonical_string, canonical_pairs. cbn [keys].
    assert (Hk : map fst p ≡ₚ map fst q) by now rewrite Hp.
    rewrite (sort_unique _ _ Hk). f_equal.
    apply map_ext. intros k. unfold pair_of, get.
    now rewrite (assoc_perm k p q Hnd Hp).
Qed.

Lemma formatParameters_canonical_witness :
  NoDup (map fst [("b", JNum 2); ("a", JNum 1)])
  /\ [("b", JNum 2); ("a", JNum 1)] ≡ₚ [("a", JNum 1); ("b", JNum 2)]
  /\ formatParameters (obj [("b", JNum 2); ("a", JNum 1)])
     = formatParameters (obj [("a", JNum 1); ("b", JNum 2)])
  /\ ascii_only "amount" = true
  /\ ascii_only "api_key" = true
  /\ (string_le "amount" "api_key" <-> String.leb "amount" "api_key" = true)
  /\ get (obj [("symbol", JStr "btc_usd")]) "symbol" = JStr "btc_usd"
  /\ pair_of (obj [("symbol", JStr "btc_usd")]) "symbol"
     = "symbol" +:+ "=" +:+ "btc_usd".
Proof.
  assert (Hnd : NoDup (map fst [("b", JNum 2); ("a", JNum 1)])).
  { apply (bool_decide_unpack _). vm_compute. reflexivity. }
  assert (Hp : [("b", JNum 2); ("a", JNum 1)] ≡ₚ [("a", JNum 1); ("b", JNum 2)])
    by apply Permutation_swap.
  destruct formatParameters_canonical as (_ & _ & Horder & Hpair & _ & Hsame).
  split; [exact Hnd | split; [exact Hp |]].
  split; [exact (Hsame None None _ _ Hnd Hp)|].
  split; [reflexivity|]. split; [reflexivity|].
  split; [exact (Horder "amount" "api_key" eq_refl eq_refl)|].
  split; [reflexivity|].
  exact (Hpair (obj [("symbol", JStr "btc_usd")]) "symbol" "btc_usd" eq_refl).
Defined.

(** ** The signer *)

Lemma toUpperCase_length (s : string) :
  String.length (toUpperCase s) = String.length s.
Proof. induction s as [|c s IH]; simpl; [reflexivity | now rewrite IH]. Qed.

Lemma toUpperCase_list (s : string) :
  list_ascii_of_string (toUpperCase s)
  = map upper_ascii (list_ascii_of_string s).
Proof. induction s as [|c s IH]; simpl; [reflexivity | now rewrite IH]. Qed.

Lemma string_length_list (s : string) :
  String.length s = length (list_ascii_of_string s).
Proof. induction s as [|c s IH]; simpl; [reflexivity | now rewrite IH]. Qed.

Lemma le_bytes_length (n : nat) (x : Z) : length (MD5.le_bytes n x) = n.
Proof. unfold MD5.le_bytes. now rewrite length_map, length_seq. Qed.

Lemma le_bytes_bytes (n : nat) (x : Z) : Forall is_byte (MD5.le_bytes n x).
Proof.
  unfold MD5.le_bytes. apply Forall_map, Forall_forall. intros j _.
  unfold is_byte. apply Z.mod_pos_bound. reflexivity.
Qed.

Lemma digest_length (msg : list Z) : length (MD5.digest msg) = 16%nat.
Proof.
  unfold MD5.digest. destruct (MD5.blocks _ _ _) as [a b c d].
  rewrite !length_app, !le_bytes_length. reflexivity.
Qed.

Lemma digest_bytes (msg : list Z) : Forall is_byte (MD5.digest msg).
Proof.
  unfold MD5.digest. destruct (MD5.blocks _ _ _) as [a b c d].
  rewrite !Forall_app. repeat split; apply le_bytes_bytes.
Qed.

Lemma bytesToHex_list (bs : list Z) :
  list_ascii_of_string (MD5.bytesToHex bs)
  = flat_map (fun b => [MD5.hexdigit (Z.shiftr b 4); MD5.hexdigit (Z.land b 0xf)]) bs.
Proof. unfold MD5.bytesToHex. apply list_ascii_of_string_of_list_ascii. Qed.

Lemma bytesToHex_length (bs : list Z) :
  String.length (MD5.bytesToHex bs) = (2 * length bs)%nat.
Proof.
  rewrite string_length_list, bytesToHex_list.
  induction bs as [|b bs IH]; simpl; [reflexivity | rewrite IH; lia].
Qed.

Lemma nibble_upper (n : Z) :
  (0 <= n < 16)%Z -> upper_hex_digit (upper_ascii (MD5.hexdigit n)) = true.
Proof.
  intros Hn. unfold MD5.hexdigit.
  assert (Hm : (Z.to_nat n < 16)%nat) by lia.
  revert Hm. generalize (Z.to_nat n) as m. intros m Hm.
  do 16 (destruct m as [|m]; [reflexivity|]). lia.
Qed.

Lemma byte_high_nibble (b : Z) : is_byte b -> (0 <= Z.shiftr b 4 < 16)%Z.
Proof.
  unfold is_byte. intros Hb. rewrite Z.shiftr_div_pow2 by lia.
  change (2 ^ 4)%Z with 16%Z. split.
  - apply Z.div_pos; lia.
  - apply Z.div_lt_upper_bound; lia.
Qed.

Lemma byte_low_nibble (b : Z) : (0 <= Z.land b 0xf < 16)%Z.
Proof.
  change 0xf%Z with (Z.ones 4). rewrite Z.land_ones by lia.
  apply Z.mod_pos_bound. reflexivity.
Qed.

Lemma upper_hex_bytes (bs : list Z) :
  Forall is_byte bs ->
  Forall (fun c => upper_hex_digit c = true)
    (list_ascii_of_string (toUpperCase (MD5.bytesToHex bs))).
Proof.
  intros Hbs. rewrite toUpperCase_list, bytesToHex_list.
  induction Hbs as [|b bs Hb _ IH]; [constructor|].
  cbn [flat_map app map]. repeat constructor; [| |exact IH].
  - apply nibble_upper, byte_high_nibble, Hb.
  - apply nibble_upper, byte_low_nibble.
Qed.

Example md5_empty : MD5.md5 EmptyString = "d41d8cd98f00b204e9800998ecf8427e".
Proof. vm_compute. reflexivity. Qed.

Example md5_abc : MD5.md5 "abc" = "900150983cd24fb0d6963f7d28e17f72".
Proof. vm_compute. reflexivity. Qed.

Example md5_fox :
  MD5.md5 "The quick brown fox jumps over the lazy dog"
  = "9e107d9d372bb6826bd81d3542a419d6".
Proof. vm_compute. reflexivity. Qed.

(** Seventy bytes: two blocks. *)
Example md5_two_blocks :
  MD5.md5 "aaaaaaaaaaaaaaaaaaaaaaaaaaaaaaaaaaaaaaaaaaaaaaaaaaaaaaaaaaaaaaaaaaaaaa"
  = "0f5c6c4e740bfcc08c3c26ccb2673d46".
Proof. vm_compute. reflexivity. Qed.

(** Fifty-six bytes: the padding spills into a second block. *)
Example md5_padding_boundary :
  MD5.md5 "aaaaaaaaaaaaaaaaaaaaaaaaaaaaaaaaaaaaaaaaaaaaaaaaaaaaaaaa"
  = "3b0c8ac703f828b04c6c197006d17218".
Proof. vm_compute. reflexivity. Qed.

Example signMessage_ab :
  signMessage sample_client (obj [("b", JNum 2); ("a", JNum 1)])
  = "C6C4F7D14A7D9D681E8875969ED4C53D".
Proof. vm_compute. reflexivity. Qed.

(** C2. For every parameter mapping and secret, [signMessage] returns the
    uppercase hexadecimal rendering of the MD5 digest (16 bytes, 128 bits)
    of the canonical string followed by [&secret_key=<secret>]; the result
    has 32 characters, all of them uppercase hexadecimal digits. *)
Theorem signMessage_md5_upper_hex (self : OKEX) (params : value) :
  let signed :=
    canonical_string params +:+ "&secret_key=" +:+ to_string (secret self) in
  signMessage self params
  = toUpperCase (MD5.bytesToHex (MD5.digest (MD5.stringToBytes signed)))
  /\ length (MD5.digest (MD5.stringToBytes signed)) = 16%nat
  /\ Forall is_byte (MD5.digest (MD5.stringToBytes signed))
  /\ String.length (signMessage self params) = 32%nat
  /\ Forall (fun c => upper_hex_digit c = true)
       (list_ascii_of_string (signMessage self params)).
Proof.
  intros signed. unfold signMessage. cbv zeta.
  rewrite formatParameters_spec. fold signed. unfold MD5.md5.
  split; [reflexivity|]. split; [apply digest_length|].
  split; [apply digest_bytes|]. split.
  - now rewrite toUpperCase_length, bytesToHex_length, digest_length.
  - apply upper_hex_bytes, digest_bytes.
Qed.

(** ** Calls of the callback *)

Lemma call_function (callback : value) (error : option VError) (data : value) :
  is_function callback = true ->
  call callback error data = ([Callback error data], Returned).
Proof. intros Hf. unfold call. now rewrite Hf. Qed.

Lemma call_not_function (callback : value) (error : option VError) (data : value) :
  is_function callback = false ->
  call callback error data = ([], Thrown "TypeError: callback is not a function").
Proof. intros Hf. unfold call. now rewrite Hf. Qed.

Lemma function_truthy (v : value) : is_function v = true -> truthy v = true.
Proof. destruct v as [| | | | | | |[src|] props]; simpl; congruence. Qed.

Lemma call_no_request (callback : value) (error : option VError) (data : value) :
  requests (fst (call callback error data)) = [].
Proof. unfold call. destruct (is_function callback); reflexivity. Qed.

Section Guards.

Context `{Host}.
Variables (self : OKEX) (method : string) (params callback : value).

Lemma publicRequest_issue :
  isObject params = true -> is_function callback = true ->
  publicRequest self method params callback
  = executeRequest
      {| opt_url := to_string (server self) +:+ "/api/v1/" +:+ method +:+ ".do";
         opt_method := "GET";
         opt_headers := headers;
         opt_timeout := timeout self;
         opt_qs := params;
         opt_form := JUndefined;
         opt_json := obj [] |}
      (util_format "%s request to url %s with parameters %s"
         [JStr "GET";
          JStr (to_string (server self) +:+ "/api/v1/" +:+ method +:+ ".do");
          JSON_stringify params])
      callback.
Proof.
  intros Hp Hf. unfold publicRequest.
  rewrite Hp, Hf, (function_truthy _ Hf). reflexivity.
Qed.

Lemma privateRequest_issue :
  truthy (api_key self) = true -> truthy (secret self) = true ->
  isObject params = true -> is_function callback = true ->
  let keyed := set_prop "api_key" (api_key self) params in
  let signed := set_prop "sign" (JStr (signMessage self keyed)) keyed in
  privateRequest self method params callback
  = ([ConsoleLog keyed;
      Request
        {| opt_url := to_string (server self) +:+ "/api/v1/" +:+ method +:+ ".do";
           opt_method := "POST";
           opt_headers := headers;
           opt_timeout := JUndefined;
           opt_qs := JUndefined;
           opt_form := signed;
           opt_json := JUndefined |}
        (util_format "%s request to url %s with method %s and params %s"
           [JStr "POST";
            JStr (to_string (server self) +:+ "/api/v1/" +:+ method +:+ ".do");
            JStr method; JSON_stringify signed])
        callback],
     Returned).
Proof.
  intros Hk Hs Hp Hf. unfold privateRequest.
  rewrite Hk, Hs, Hp, Hf, (function_truthy _ Hf). reflexivity.
Qed.

(** C5. A private call whose credentials are not both truthy, or whose
    parameters are not an object, issues no request; when the callback is a
    function it is called at once, before [privateRequest] returns, with the
    credentials error in the first case and the parameters error otherwise. *)
Theorem privateRequest_preconditions :
  truthy (api_key self) && truthy (secret self) = false
  \/ isObject params = false ->
  requests (fst (privateRequest self method params callback)) = []
  /\ (forall network : Options -> reply,
        requests (trace network (privateRequest self method params callback)) = [])
  /\ (is_function callback = true ->
      privateRequest self method params callback
      = ([Callback
            (Some (if truthy (api_key self) && truthy (secret self)
                   then params_error "OKEX.privateRequest()" params
                   else credentials_error "OKEX.privateRequest()"))
            JUndefined],
         Returned)).
Proof.
  intros Hbad.
  assert (Hcall : exists e,
             privateRequest self method params callback
             = call callback (Some e) JUndefined
             /\ e = if truthy (api_key self) && truthy (secret self)
                    then params_error "OKEX.privateRequest()" params
                    else credentials_error "OKEX.privateRequest()").
  { unfold privateRequest.
    destruct (truthy (api_key self)), (truthy (secret self));
      cbn [negb orb andb] in *; eauto.
    destruct Hbad as [Hbad|Hbad]; [discriminate|]. rewrite Hbad. eauto. }
  destruct Hcall as (e & Hcall & He). rewrite Hcall. subst e.
  split; [apply call_no_request|]. split.
  - intros network. unfold trace, call.
    destruct (is_function callback); reflexivity.
  - intros Hf. now apply call_function.
Qed.

(** C6 (what the code does). With a callback that is not a function, both
    request functions build their error and then call the callback with it:
    the call throws a [TypeError], no callback receives the argument error,
    and no request is issued. *)
Theorem missing_callback_throws :
  is_function callback = false ->
  publicRequest self method params callback
  = ([], Thrown "TypeError: callback is not a function")
  /\ privateRequest self method params callback
     = ([], Thrown "TypeError: callback is not a function").
Proof.
  intros Hf. unfold publicRequest, privateRequest.
  rewrite Hf, Bool.orb_true_r.
  split.
  - destruct (isObject params); cbn [negb]; now apply call_not_function.
  - destruct (negb (truthy (api_key self)) || negb (truthy (secret self)));
      [now apply call_not_function|].
    destruct (isObject params); cbn [negb]; now apply call_not_function.
Qed.

End Guards.

Lemma privateRequest_preconditions_witness :
  truthy (api_key anonymous_client) && truthy (secret anonymous_client) = false
  /\ @privateRequest sample_host anonymous_client "userinfo" (obj []) logResponse
     = ([Callback (Some (credentials_error "OKEX.privateRequest()")) JUndefined],
        Returned).
Proof.
  split; [reflexivity|].
  refine (proj2 (proj2 (@privateRequest_preconditions sample_host
                          anonymous_client "userinfo" (obj []) logResponse
                          (or_introl eq_refl))) eq_refl).
Defined.

Lemma missing_callback_throws_witness :
  is_function JUndefined = false
  /\ @publicRequest sample_host sample_client "ticker"
       (obj [("symbol", JStr "btc_usd")]) JUndefined
     = ([], Thrown "TypeError: callback is not a function").
Proof.
  split; [reflexivity|].
  exact (proj1 (@missing_callback_throws sample_host sample_client "ticker"
                  (obj [("symbol", JStr "btc_usd")]) JUndefined eq_refl)).
Defined.

(** ** Error codes *)

Lemma uint_head (d : Decimal.uint) :
  exists c rest,
    NilZero.string_of_uint d = String c rest
    /\ In c (list_ascii_of_string "0123456789").
Proof. destruct d; cbn; eexists _, _; (split; [reflexivity|]); cbn; tauto. Qed.

Lemma insert_at_head (n : nat) (ins : string) (c : ascii) (rest : string) :
  Number.insert_at (S n) ins (String c rest)
  = String c (Number.insert_at n ins rest).
Proof. reflexivity. Qed.

Lemma layout_head (ds : string) (n : Z) :
  (exists c rest, ds = String c rest
                  /\ In c (list_ascii_of_string "0123456789")) ->
  exists c rest,
    Number.layout ds n = String c rest
    /\ In c (list_ascii_of_string "0123456789").
Proof.
  intros (c & rest & -> & Hc). unfold Number.layout.
  set (k := Z.of_nat (String.length (String c rest))).
  destruct ((k <=? n)%Z && (n <=? 21)%Z); [rewrite append_cons; eauto|].
  destruct ((0 <? n)%Z && (n <=? 21)%Z) eqn:Hn.
  { apply andb_prop in Hn as [Hn _]. apply Z.ltb_lt in Hn.
    destruct (Z.to_nat n) as [|i] eqn:Hi; [lia|].
    rewrite insert_at_head. eauto. }
  destruct ((-6 <? n)%Z && (n <=? 0)%Z).
  { eexists _, _. split; [reflexivity|]. cbn. tauto. }
  destruct (k =? 1)%Z; [rewrite append_cons; eauto|].
  rewrite insert_at_head, append_cons. eauto.
Qed.

Lemma number_to_string_head (x : Number.double) :
  exists c rest,
    Number.to_string x = String c rest
    /\ In c (list_ascii_of_string "-0123456789IN").
Proof.
  destruct x as [|negative|negative m e]; cbn [Number.to_string].
  - eexists _, _. split; [reflexivity|]. cbn. tauto.
  - destruct negative; eexists _, _; (split; [reflexivity|]); cbn; tauto.
  - destruct (m =? 0)%Z.
    { eexists _, _. split; [reflexivity|]. cbn. tauto. }
    destruct (Number.shortest _ _ _ _) as [s p].
    destruct negative.
    { eexists _, _. split; [reflexivity|]. cbn. tauto. }
    destruct (layout_head (Number.digits s)
                (p + Z.of_nat (String.length (Number.digits s)))
                (uint_head _)) as (c & rest & -> & Hc).
    exists c, rest. split; [reflexivity|]. cbn in *. tauto.
Qed.

Lemma decimal_head (n : Z) :
  exists c rest,
    decimal n = String c rest
    /\ In c (list_ascii_of_string "-0123456789IN").
Proof.
  unfold decimal. destruct (Z.abs n <? 2 ^ 53)%Z;
    [|apply number_to_string_head].
  destruct (Z.to_int n) as [d|d]; cbn [NilZero.string_of_int].
  - destruct (uint_head d) as (c & rest & -> & Hc).
    exists c, rest. split; [reflexivity|]. cbn in *. tauto.
  - eexists _, _. split; [reflexivity|]. cbn. tauto.
Qed.

(** No decimal numeral names a member of [Object.prototype]. *)
Lemma decimal_not_inherited (n : Z) : assoc (decimal n) Object_prototype = None.
Proof.
  destruct (decimal_head n) as (c & rest & -> & Hc). cbn in Hc.
  repeat (destruct Hc as [<-|Hc]; [reflexivity|]). contradiction.
Qed.

Lemma assoc_truthy (props : list (string * value)) (k : string) (v : value) :
  forallb (fun kv => truthy (snd kv)) props = true ->
  assoc k props = Some v -> truthy v = true.
Proof.
  induction props as [|[k' v'] props IH]; cbn [forallb assoc snd];
    [discriminate|].
  intros [Hv Hall]%andb_prop. destruct (String.eqb k k'); [|auto].
  now intros [= <-].
Qed.

Lemma mapErrorMessage_known (n : Z) :
  decimal n ∈ keys errorCodes ->
  mapErrorMessage (JNum n) = get errorCodes (decimal n)
  /\ truthy (get errorCodes (decimal n)) = true.
Proof.
  intros Hin. unfold mapErrorMessage. cbn [to_string].
  assert (Ht : truthy (get errorCodes (decimal n)) = true).
  { unfold get, errorCodes, obj in *. cbn [keys] in Hin.
    match goal with |- context [assoc _ ?t] => set (table := t) in * end.
    destruct (assoc (decimal n) table) as [v|] eqn:Hk.
    - eapply assoc_truthy; [|exact Hk]. vm_compute. reflexivity.
    - apply assoc_None_notin in Hk. contradiction. }
  rewrite Ht. split; reflexivity.
Qed.

Lemma mapErrorMessage_unknown (n : Z) :
  decimal n ∉ keys errorCodes ->
  mapErrorMessage (JNum n) = JStr ("Unknown OKEX error code: " +:+ decimal n).
Proof.
  intros Hout. unfold mapErrorMessage. cbn [to_string].
  assert (Hu : get errorCodes (decimal n) = JUndefined).
  { unfold get, errorCodes, obj in *. cbn [keys] in Hout.
    match goal with |- context [assoc _ ?t] => set (table := t) in * end.
    apply assoc_None_notin in Hout. rewrite Hout.
    now rewrite decimal_not_inherited. }
  rewrite Hu. reflexivity.
Qed.

Example mapErrorMessage_10007 :
  mapErrorMessage (JNum 10007) = JStr "Signatures do not match".
Proof. reflexivity. Qed.

Example mapErrorMessage_99999 :
  mapErrorMessage (JNum 99999) = JStr "Unknown OKEX error code: 99999".
Proof. reflexivity. Qed.

(** An inherited member answers a code that is no number. *)
Example mapErrorMessage_inherited :
  mapErrorMessage (JStr "toString") = native "toString".
Proof. reflexivity. Qed.

(** ** Building the errors *)

Lemma find_plain (s : string) :
  plain s -> forall text, find text s = None.
Proof.
  unfold plain. induction s as [|c s IH]; intros Hs text; [reflexivity|].
  cbn [find list_ascii_of_string] in *.
  destruct (Ascii.eqb c "%") eqn:Hc.
  - apply Ascii.eqb_eq in Hc. subst c. exfalso. apply Hs. now left.
  - apply IH. intros Hin. apply Hs. now right.
Qed.

(** A format without a percent sign is printed as it is, whatever the
    arguments. *)
Lemma sprintf_plain (fmt : string) (args : list value) :
  plain fmt -> sprintf fmt args = Ok fmt.
Proof.
  intros Hp. unfold sprintf. cbn [sprintf_loop].
  now rewrite (find_plain fmt Hp).
Qed.

Lemma plain_append (a b : string) : plain a -> plain b -> plain (a +:+ b).
Proof.
  unfold plain. induction a as [|c a IH]; intros Ha Hb; [exact Hb|].
  rewrite append_cons. cbn [list_ascii_of_string In] in *.
  intros [Hc|Hin]; [apply Ha; now left|].
  revert Hin. apply IH; [|exact Hb]. intros Hin. apply Ha. now right.
Qed.

Lemma plain_prefix :
  plain "Could not parse response from server: ".
Proof.
  unfold plain. cbn. intros Hin.
  repeat (destruct Hin as [Hin|Hin]; [discriminate|]). exact Hin.
Qed.

Lemma new_parse_error_plain (e : string) (data : value) :
  plain (to_string data) ->
  new_parse_error e data
  = Ok {| message := "Could not parse response from server: "
                     +:+ to_string data +:+ ": " +:+ e;
          name := JStr "VError";
          info := JUndefined |}.
Proof.
  intros Hp. unfold new_parse_error, new_VError. cbn [map].
  rewrite sprintf_plain; [now rewrite append_assoc|].
  apply plain_append; [apply plain_prefix | exact Hp].
Qed.

Lemma find_directive (text rest after : string) (d : directive) :
  plain text -> directive_of rest = Some (d, after) ->
  forall before,
    find before (text +:+ String "%" rest)
    = Some (before +:+ text, d,
            (String.length (before +:+ text) + 1
             + (String.length rest - String.length after))%nat).
Proof.
  unfold plain. intros Hp Hd.
  induction text as [|c text IH]; intros before.
  - rewrite append_nil_l, append_nil_r. cbn [find Ascii.eqb Bool.eqb andb].
    now rewrite Hd.
  - rewrite append_cons. cbn [find list_ascii_of_string In] in *.
    destruct (Ascii.eqb c "%") eqn:Hc.
    + apply Ascii.eqb_eq in Hc. subst c. exfalso. apply Hp. now left.
    + rewrite IH by (intros Hin; apply Hp; now right).
      now rewrite append_assoc.
Qed.

(** A format whose first percent sign starts a directive other than
    [%%] makes [sprintf] throw when there are no arguments. *)
Lemma sprintf_too_few (text rest after : string) (d : directive) :
  plain text -> directive_of rest = Some (d, after) ->
  conversion d <> "%"%char ->
  sprintf (text +:+ String "%" rest) [] = Throw "Error: too few args to sprintf".
Proof.
  intros Hp Hd Hc. unfold sprintf. cbn [sprintf_loop].
  rewrite (find_directive text rest after d Hp Hd).
  apply Ascii.eqb_neq in Hc. now rewrite Hc.
Qed.

Lemma new_parse_error_throws (e text rest after : string) (d : directive)
  (data : value) :
  to_string data = text +:+ String "%" rest ->
  plain text -> directive_of rest = Some (d, after) ->
  conversion d <> "%"%char ->
  new_parse_error e data = Throw "Error: too few args to sprintf".
Proof.
  intros Hdata Hp Hd Hc. unfold new_parse_error, new_VError. cbn [map].
  rewrite Hdata, <- append_assoc.
  rewrite (sprintf_too_few _ rest after d); [reflexivity| |exact Hd|exact Hc].
  apply plain_append; [apply plain_prefix | exact Hp].
Qed.

Example sprintf_directives :
  sprintf "100% sure" [] = Throw "Error: too few args to sprintf"
  /\ sprintf "100%% sure" [] = Ok "100% sure"
  /\ sprintf "50%" [] = Ok "50%"
  /\ sprintf "%s is %5s" [JStr "a"; JNum 7] = Ok "a is     7".
Proof. repeat split. Qed.

Lemma constructed_ok (r : result VError) :
  (exists e, r = Ok e) -> r = Ok (constructed r).
Proof. now intros [e ->]. Qed.

Ltac prints := apply constructed_ok; eexists; lazy -[to_string]; reflexivity.

(** The constructor returns at every site whose format is a literal. *)
Lemma credentials_error_constructed (functionName : string) :
  new_VError None
    "%s must provide api_key and secret to make this API request."
    [JStr functionName]
  = Ok (credentials_error functionName).
Proof. unfold credentials_error. prints. Qed.

Lemma params_error_constructed (functionName : string) (params : value) :
  new_VError None
    "%s second parameter %s must be an object. If no params then pass an empty object {}"
    [JStr functionName; params]
  = Ok (params_error functionName params).
Proof. unfold params_error. destruct params; prints. Qed.

Lemma private_callback_error_constructed (functionName : string) :
  new_VError None "%s third parameter needs to be a callback function"
    [JStr functionName]
  = Ok (private_callback_error functionName).
Proof. unfold private_callback_error. prints. Qed.

Lemma public_callback_error_constructed (functionName : string) :
  new_VError None
    "%s third parameter needs to be a callback function with err and data parameters"
    [JStr functionName]
  = Ok (public_callback_error functionName).
Proof. unfold public_callback_error. prints. Qed.

Lemma transport_error_constructed (functionName requestDesc : string)
  (err : NodeError) :
  exists e,
    new_VError (Some (err_message err)) "%s failed %s"
      [JStr functionName; JStr requestDesc] = Ok e
    /\ transport_error functionName requestDesc err = set_name (err_code err) e
    /\ message e
       = functionName +:+ " failed " +:+ requestDesc +:+ ": " +:+ err_message err.
Proof.
  eexists. split; [lazy -[to_string]; reflexivity|].
  split; [reflexivity|]. cbn [message to_string].
  rewrite append_nil_r, !append_assoc. reflexivity.
Qed.

Lemma http_error_constructed (functionName requestDesc : string)
  (statusCode : Z) :
  exists e,
    new_VError None "%s HTTP status code %s returned from %s"
      [JStr functionName; JNum statusCode; JStr requestDesc] = Ok e
    /\ http_error functionName requestDesc statusCode
       = set_name (JNum statusCode) e
    /\ message e
       = functionName +:+ " HTTP status code " +:+ decimal statusCode
         +:+ " returned from " +:+ requestDesc.
Proof.
  eexists. split; [lazy -[to_string]; reflexivity|].
  split; [reflexivity|]. cbn [message to_string].
  rewrite append_nil_r. reflexivity.
Qed.

Lemma unparsed_error_constructed (functionName requestDesc : string)
  (data : value) :
  new_VError None
    ("%s could not parse response from %s" +:+ newline +:+ "Response: %s")
    [JStr functionName; JStr requestDesc; data]
  = Ok (unparsed_error functionName requestDesc data).
Proof. unfold unparsed_error. destruct data; prints. Qed.

Lemma exchange_error_constructed (functionName requestDesc : string)
  (error_code : value) :
  exists e,
    new_VError None
      ("%s %s returned error code %s, message: " +:+ dquote +:+ "%s" +:+ dquote)
      [JStr functionName; JStr requestDesc; error_code;
       mapErrorMessage error_code] = Ok e
    /\ exchange_error functionName requestDesc error_code
       = set_name error_code (set_info (mapErrorMessage error_code) e).
Proof.
  unfold exchange_error. generalize (mapErrorMessage error_code).
  intros errorMessage.
  destruct error_code, errorMessage;
    (eexists; split; [lazy -[to_string]; reflexivity|reflexivity]).
Qed.

(** ** The handler *)

Section Handler.

Context `{Host}.
Variables (options : Options) (requestDesc : string).

Lemma override_set (c : option VError * value) :
  has (snd c) "error_code" = true ->
  override requestDesc c
  = (Some (exchange_error "OKEX.executeRequest()" requestDesc
             (get (snd c) "error_code")),
     snd c).
Proof.
  intros Hhas. destruct c as [error returnObject].
  unfold override. cbn [snd] in *. now rewrite Hhas.
Qed.

Lemma override_keep (c : option VError * value) :
  has (snd c) "error_code" = false -> override requestDesc c = c.
Proof.
  intros Hhas. destruct c as [error returnObject].
  unfold override. cbn [snd] in *. now rewrite Hhas.
Qed.

Lemma override_snd (c : option VError * value) :
  snd (override requestDesc c) = snd c.
Proof. now destruct c. Qed.

Lemma normalize_ok (r : reply) (c : option VError * value) :
  classify options requestDesc r = Ok c ->
  normalize options requestDesc r = override requestDesc c.
Proof. intros Hc. unfold normalize. now rewrite Hc. Qed.

Lemma handler_ok (callback : value) (r : reply) (c : option VError * value) :
  is_function callback = true ->
  classify options requestDesc r = Ok c ->
  handler options requestDesc callback r
  = ([Callback (fst (override requestDesc c)) (snd (override requestDesc c))],
     Returned).
Proof.
  intros Hf Hc. unfold handler. rewrite Hc.
  destruct (override requestDesc c) as [error returnObject].
  now apply call_function.
Qed.

Lemma handler_throw (callback : value) (r : reply) (exn : string) :
  classify options requestDesc r = Throw exn ->
  handler options requestDesc callback r = ([], Thrown exn).
Proof. intros Hc. unfold handler. now rewrite Hc. Qed.

Lemma raises_false (r : reply) :
  raises options requestDesc r = false ->
  exists c, classify options requestDesc r = Ok c.
Proof.
  unfold raises. destruct (classify options requestDesc r) as [c|exn];
    [eauto | discriminate].
Qed.

(** A handler that does not throw calls a callback that is a function
    once, with the arguments [normalize] gives. *)
Lemma handler_function (callback : value) (r : reply) :
  is_function callback = true ->
  raises options requestDesc r = false ->
  handler options requestDesc callback r
  = ([Callback (fst (normalize options requestDesc r))
        (snd (normalize options requestDesc r))],
     Returned).
Proof.
  intros Hf [c Hc]%raises_false.
  now rewrite (handler_ok _ _ _ Hf Hc), (normalize_ok _ _ Hc).
Qed.

(** The chain throws on no reply that [settles]. *)
Lemma settles_raises (r : reply) :
  settles options r -> raises options requestDesc r = false.
Proof.
  destruct r as [err|statusCode data]; [reflexivity|].
  unfold settles, raises, classify. intros Hsettles.
  destruct ((statusCode <? 200)%Z || (statusCode >=? 300)%Z) eqn:Hs;
    [reflexivity|].
  assert (Hr : (200 <= statusCode < 300)%Z).
  { apply Bool.orb_false_iff in Hs as [H1 H2].
    apply Z.ltb_ge in H1. rewrite Z.geb_leb in H2.
    apply Z.leb_gt in H2. lia. }
  destruct (truthy (opt_form options)) eqn:Hform.
  - destruct (JSON_parse (to_string data)) as [v|e] eqn:Hparse; [reflexivity|].
    now rewrite (new_parse_error_plain e data (Hsettles Hr eq_refl e eq_refl)).
  - destruct (truthy (opt_json options) && negb (isObject data)); reflexivity.
Qed.

Lemma form_settles (r : reply) :
  truthy (opt_form options) = false -> settles options r.
Proof.
  intros Hform. destruct r as [err|statusCode data]; [exact I|].
  unfold settles. rewrite Hform. discriminate.
Qed.

(** C4. Whenever the data the handler returns holds an [error_code]
    field, the error it reports is the exchange error, whatever was decided
    before: its [name] is the code and its [info] the message of the code.
    The message of a numeric code of the table is the table's entry (for
    10007, "Signatures do not match"); of any other numeric code it is
    "Unknown OKEX error code: " followed by the code.  A body
    [{error_code: 10007}] with status 200 is such an error. *)
Theorem error_code_is_exchange_error :
  (forall r : reply,
     let returnObject := snd (normalize options requestDesc r) in
     has returnObject "error_code" = true ->
     let e := exchange_error "OKEX.executeRequest()" requestDesc
                (get returnObject "error_code") in
     fst (normalize options requestDesc r) = Some e
     /\ name e = get returnObject "error_code"
     /\ info e = mapErrorMessage (get returnObject "error_code")
     /\ forall callback, is_function callback = true ->
        handler options requestDesc callback r
        = ([Callback (Some e) returnObject], Returned))
  /\ (forall n : Z,
        decimal n ∈ keys errorCodes ->
        mapErrorMessage (JNum n) = get errorCodes (decimal n))
  /\ mapErrorMessage (JNum 10007) = JStr "Signatures do not match"
  /\ (forall n : Z,
        decimal n ∉ keys errorCodes ->
        mapErrorMessage (JNum n)
        = JStr ("Unknown OKEX error code: " +:+ decimal n))
  /\ (forall body : string,
        truthy (opt_form options) = true ->
        JSON_parse body = Parsed (obj [("error_code", JNum 10007)]) ->
        fst (normalize options requestDesc (Responded 200 (JStr body)))
        = Some (exchange_error "OKEX.executeRequest()" requestDesc (JNum 10007)))
  /\ (truthy (opt_form options) = false ->
      fst (normalize options requestDesc
             (Responded 200 (obj [("error_code", JNum 10007)])))
      = Some (exchange_error "OKEX.executeRequest()" requestDesc (JNum 10007))).
Proof.
  split; [|split; [|split; [|split; [|split]]]].
  - intros r returnObject Hhas e. subst returnObject e.
    destruct (classify options requestDesc r) as [c|exn] eqn:Hc.
    + rewrite (normalize_ok r c Hc) in *. rewrite override_snd in *.
      rewrite (override_set c Hhas). cbn [fst snd].
      repeat split. intros callback Hf.
      rewrite (handler_ok callback r c Hf Hc), (override_set c Hhas).
      reflexivity.
    + unfold normalize in Hhas. rewrite Hc in Hhas. discriminate.
  - intros n Hin. apply mapErrorMessage_known, Hin.
  - reflexivity.
  - apply mapErrorMessage_unknown.
  - intros body Hform Hparse.
    rewrite (normalize_ok _ (None, obj [("error_code", JNum 10007)])).
    + reflexivity.
    + cbn [classify Z.ltb Z.geb Z.compare Pos.compare Pos.compare_cont orb
             to_string].
      rewrite Hform, Hparse. reflexivity.
  - intros Hform.
    rewrite (normalize_ok _ (None, obj [("error_code", JNum 10007)])).
    + reflexivity.
    + cbn [classify Z.ltb Z.geb Z.compare Pos.compare Pos.compare_cont orb].
      rewrite Hform. destruct (truthy (opt_json options)); reflexivity.
Qed.

End Handler.

Lemma error_code_is_exchange_error_witness :
  let options :=
    {| opt_url := "https://www.okex.com/api/v1/userinfo.do";
       opt_method := "POST"; opt_headers := headers; opt_timeout := JUndefined;
       opt_qs := JUndefined; opt_form := obj [("api_key", JStr "key")];
       opt_json := JUndefined |} in
  has (snd (@normalize sample_host options "POST request"
              (Responded 200 (JStr body_10007)))) "error_code" = true
  /\ option_map info
       (fst (@normalize sample_host options "POST request"
               (Responded 200 (JStr body_10007))))
     = Some (JStr "Signatures do not match")
  /\ (decimal 99999 ∉ keys errorCodes)
  /\ mapErrorMessage (JNum 99999) = JStr "Unknown OKEX error code: 99999".
Proof.
  intros options.
  assert (Hhas : has (snd (@normalize sample_host options "POST request"
                             (Responded 200 (JStr body_10007)))) "error_code"
                 = true) by reflexivity.
  assert (Hout : decimal 99999 ∉ keys errorCodes).
  { apply (bool_decide_unpack _). vm_compute. reflexivity. }
  pose proof (@error_code_is_exchange_error sample_host options "POST request")
    as (Hnorm & _ & _ & Hunknown & _).
  split; [exact Hhas|]. split; [|split; [exact Hout|]].
  - destruct (Hnorm (Responded 200 (JStr body_10007)) Hhas) as (-> & _).
    reflexivity.
  - exact (Hunknown 99999 Hout).
Defined.

Section Outcome.

Context `{Host}.
Variables (options : Options) (requestDesc : string).

Lemma http_error_message (functionName : string) (statusCode : Z) :
  message (http_error functionName requestDesc statusCode)
  = functionName +:+ " HTTP status code " +:+ decimal statusCode
    +:+ " returned from " +:+ requestDesc.
Proof.
  destruct (http_error_constructed functionName requestDesc statusCode)
    as (e & _ & -> & He).
  exact He.
Qed.

Lemma classify_http (statusCode : Z) (data : value) :
  (statusCode < 200 \/ 300 <= statusCode)%Z ->
  classify options requestDesc (Responded statusCode data)
  = Ok (Some (http_error "OKEX.executeRequest()" requestDesc statusCode), data).
Proof.
  intros Hs. unfold classify.
  replace ((statusCode <? 200)%Z || (statusCode >=? 300)%Z) with true;
    [reflexivity|].
  symmetry. apply Bool.orb_true_iff. rewrite Z.ltb_lt, Z.geb_le. lia.
Qed.

(** C7 (as the code has it). A response whose status is outside
    [200, 300) and whose data holds no [error_code] field is reported as the
    HTTP error: its [name] is the status code and its message gives the
    status code and the description of the request.  This covers a status
    of 500 with a JSON body without [error_code]. *)
Theorem http_failure_unless_error_code (statusCode : Z) (data : value) :
  (statusCode < 200 \/ 300 <= statusCode)%Z ->
  has data "error_code" = false ->
  let e := http_error "OKEX.executeRequest()" requestDesc statusCode in
  normalize options requestDesc (Responded statusCode data) = (Some e, data)
  /\ name e = JNum statusCode
  /\ message e
     = "OKEX.executeRequest() HTTP status code " +:+ decimal statusCode
       +:+ " returned from " +:+ requestDesc
  /\ forall callback, is_function callback = true ->
     handler options requestDesc callback (Responded statusCode data)
     = ([Callback (Some e) data], Returned).
Proof.
  intros Hs Hhas e.
  assert (Hn : normalize options requestDesc (Responded statusCode data)
               = (Some e, data)).
  { rewrite (normalize_ok _ _ _ _ (classify_http _ _ Hs)).
    now apply override_keep. }
  split; [exact Hn|]. split; [reflexivity|]. split.
  - apply (http_error_message "OKEX.executeRequest()").
  - intros callback Hf.
    rewrite (handler_ok _ _ _ _ _ Hf (classify_http _ _ Hs)).
    rewrite override_keep by exact Hhas. reflexivity.
Qed.

Lemma override_none_iff (c : option VError * value) :
  fst (override requestDesc c) = None
  <-> fst c = None /\ has (snd c) "error_code" = false.
Proof.
  destruct c as [error returnObject]. unfold override.
  cbn [fst snd]. destruct (has returnObject "error_code"); cbn [fst].
  - split; [discriminate | intros [_ ?]; discriminate].
  - tauto.
Qed.

Lemma normalize_success (r : reply) :
  settles options r ->
  fst (normalize options requestDesc r) = None <-> succeeds options r.
Proof.
  intros Hsettles.
  destruct (raises_false _ _ r (settles_raises _ requestDesc r Hsettles))
    as [c Hc].
  rewrite (normalize_ok _ _ r c Hc), override_none_iff.
  destruct r as [err|statusCode data].
  - injection Hc as <-. cbn. split; [intros [? _]; discriminate | contradiction].
  - unfold succeeds.
    destruct ((statusCode <? 200)%Z || (statusCode >=? 300)%Z) eqn:Hs.
    + rewrite classify_http in Hc
        by (apply Bool.orb_true_iff in Hs; rewrite Z.ltb_lt, Z.geb_le in Hs; lia).
      injection Hc as <-.
      cbn [fst snd]. split; [intros [? _]; discriminate|].
      apply Bool.orb_true_iff in Hs. rewrite Z.ltb_lt, Z.geb_le in Hs. lia.
    + assert (Hr : (200 <= statusCode < 300)%Z).
      { apply Bool.orb_false_iff in Hs as [H1 H2].
        apply Z.ltb_ge in H1. rewrite Z.geb_leb in H2.
        apply Z.leb_gt in H2. lia. }
      unfold classify in Hc. rewrite Hs in Hc.
      destruct (truthy (opt_form options)).
      * destruct (JSON_parse (to_string data)) as [v|msg].
        -- injection Hc as <-. cbn [fst snd]. split.
           ++ intros [_ Hhas]. split; [exact Hr|]. eauto.
           ++ intros (_ & v' & [= <-] & Hhas). auto.
        -- destruct (new_parse_error msg data) as [error|exn]; [|discriminate].
           injection Hc as <-. cbn [fst snd].
           split; [intros [? _]; discriminate|].
           intros (_ & v' & ? & _). discriminate.
      * destruct (truthy (opt_json options)), (isObject data) eqn:Hobj;
          cbn [negb andb] in Hc; injection Hc as <-; cbn [fst snd].
        -- intuition auto.
        -- split; [intros [? _]; discriminate|].
           intros (_ & Hj & _). specialize (Hj eq_refl). discriminate.
        -- intuition (auto; discriminate).
        -- intuition (auto; discriminate).
Qed.

End Outcome.

Lemma http_failure_unless_error_code_witness :
  (500 < 200 \/ 300 <= 500)%Z
  /\ has (obj [("result", JBool false)]) "error_code" = false
  /\ @normalize sample_host
       {| opt_url := "https://www.okex.com/api/v1/ticker.do";
          opt_method := "GET"; opt_headers := headers;
          opt_timeout := JNum 20000; opt_qs := obj [];
          opt_form := JUndefined; opt_json := obj [] |}
       "GET request" (Responded 500 (obj [("result", JBool false)]))
     = (Some (http_error "OKEX.executeRequest()" "GET request" 500),
        obj [("result", JBool false)]).
Proof.
  assert (Hs : (500 < 200 \/ 300 <= 500)%Z) by (right; lia).
  split; [exact Hs|]. split; [reflexivity|].
  exact (proj1 (@http_failure_unless_error_code sample_host _ "GET request" 500
                  (obj [("result", JBool false)]) Hs eq_refl)).
Defined.

(** ** Delivery of the outcome *)

Section Delivery.

Context `{Host}.

Lemma trace_call (network : Options -> reply) (callback : value)
  (error : option VError) (data : value) :
  is_function callback = true ->
  callbacks (trace network (call callback error data)) = [(error, data)].
Proof. intros Hf. rewrite (call_function _ _ _ Hf). reflexivity. Qed.

Lemma trace_publicRequest (network : Options -> reply) (self : OKEX)
  (method : string) (params callback : value) :
  is_function callback = true ->
  length (callbacks (trace network (publicRequest self method params callback)))
  = 1%nat.
Proof.
  intros Hf. destruct (isObject params) eqn:Hp.
  - rewrite (publicRequest_issue _ _ _ _ Hp Hf).
    unfold executeRequest, trace.
    cbn [fst flat_map respond app callbacks].
    rewrite (handler_function _ _ _ _ Hf); [reflexivity|].
    apply settles_raises, form_settles. reflexivity.
  - unfold publicRequest. rewrite Hp. cbn [negb].
    now rewrite (trace_call _ _ _ _ Hf).
Qed.

Lemma trace_privateRequest (network : Options -> reply) (self : OKEX)
  (method : string) (params callback : value) :
  is_function callback = true ->
  (forall options, settles options (network options)) ->
  length (callbacks (trace network (privateRequest self method params callback)))
  = 1%nat.
Proof.
  intros Hf Hnet.
  destruct (truthy (api_key self)) eqn:Hk;
    [destruct (truthy (secret self)) eqn:Hs;
       [destruct (isObject params) eqn:Hp|]|].
  - rewrite (privateRequest_issue _ _ _ _ Hk Hs Hp Hf).
    unfold trace. cbn [fst flat_map respond app callbacks].
    rewrite (handler_function _ _ _ _ Hf); [reflexivity|].
    apply settles_raises, Hnet.
  - unfold privateRequest. rewrite Hk, Hs, Hp. cbn [negb orb].
    now rewrite (trace_call _ _ _ _ Hf).
  - unfold privateRequest. rewrite Hk, Hs. cbn [negb orb].
    now rewrite (trace_call _ _ _ _ Hf).
  - unfold privateRequest. rewrite Hk. cbn [negb orb].
    now rewrite (trace_call _ _ _ _ Hf).
Qed.

(** C3 (as the code has it). On a reply that [settles] (every reply to
    a public request; to a private one every reply but a 2xx body that
    fails to parse and holds a percent sign) the handler calls a callback
    that is a function exactly once, with the error (or null) first and
    the returned data second, and the error is null exactly when the
    request succeeded.  The data of a request without a form is passed on
    whatever the error, so an error and data can both be set.  A whole
    public request with such a callback, answered by the transport, calls
    it exactly once, and so does a private request when the transport's
    replies settle. *)
Theorem callback_once_error_first :
  (forall (options : Options) (requestDesc : string) (callback : value)
          (r : reply),
     is_function callback = true ->
     settles options r ->
     handler options requestDesc callback r
     = ([Callback (fst (normalize options requestDesc r))
           (snd (normalize options requestDesc r))],
        Returned))
  /\ (forall (options : Options) (requestDesc : string) (r : reply),
        settles options r ->
        (fst (normalize options requestDesc r) = None <-> succeeds options r))
  /\ (forall (options : Options) (requestDesc : string) (statusCode : Z)
             (data : value),
        truthy (opt_form options) = false ->
        snd (normalize options requestDesc (Responded statusCode data)) = data)
  /\ (forall (network : Options -> reply) (self : OKEX) (method : string)
             (params callback : value),
        is_function callback = true ->
        length (callbacks
                  (trace network (publicRequest self method params callback)))
        = 1%nat
        /\ ((forall options, settles options (network options)) ->
            length (callbacks
                      (trace network
                         (privateRequest self method params callback)))
            = 1%nat)).
Proof.
  split; [|split; [|split]].
  - intros options requestDesc callback r Hf Hsettles.
    apply handler_function; [exact Hf|]. now apply settles_raises.
  - intros options requestDesc r. apply normalize_success.
  - intros options requestDesc statusCode data Hform.
    unfold normalize, classify. rewrite Hform.
    destruct ((statusCode <? 200)%Z || (statusCode >=? 300)%Z);
      [apply override_snd|].
    destruct (truthy (opt_json options) && negb (isObject data));
      apply override_snd.
  - intros network self method params callback Hf. split.
    + now apply trace_publicRequest.
    + now apply trace_privateRequest.
Qed.

End Delivery.

Lemma callback_once_error_first_witness :
  let network := fun _ : Options => Responded 200 (JStr "{}") in
  is_function logResponse = true
  /\ (forall options, @settles sample_host options (network options))
  /\ length (callbacks
               (@trace sample_host network
                  (@getTicker sample_host sample_client logResponse
                     (JStr "btc_usd"))))
     = 1%nat
  /\ length (callbacks
               (@trace sample_host network
                  (@getUserInfo sample_host sample_client logResponse)))
     = 1%nat
  /\ (fst (@normalize sample_host
             {| opt_url := "https://www.okex.com/api/v1/userinfo.do";
                opt_method := "POST"; opt_headers := headers;
                opt_timeout := JUndefined; opt_qs := JUndefined;
                opt_form := obj [("api_key", JStr "key")];
                opt_json := JUndefined |}
             "POST request" (Responded 200 (JStr "{}"))) = None
      <-> @succeeds sample_host
            {| opt_url := "https://www.okex.com/api/v1/userinfo.do";
               opt_method := "POST"; opt_headers := headers;
               opt_timeout := JUndefined; opt_qs := JUndefined;
               opt_form := obj [("api_key", JStr "key")];
               opt_json := JUndefined |}
            (Responded 200 (JStr "{}"))).
Proof.
  intros network.
  assert (Hnet : forall options, @settles sample_host options (network options)).
  { intros options _ _ e He. vm_compute in He. discriminate. }
  destruct (@callback_once_error_first sample_host) as (_ & Hnull & _ & Hone).
  split; [reflexivity|]. split; [exact Hnet|]. split; [|split].
  - exact (proj1 (Hone network sample_client "ticker"
                    (obj [("symbol", JStr "btc_usd")]) logResponse eq_refl)).
  - exact (proj2 (Hone network sample_client "userinfo" (obj []) logResponse
                    eq_refl) Hnet).
  - exact (Hnull _ "POST request" (Responded 200 (JStr "{}")) (Hnet _)).
Defined.

(** C3, as stated, fails: a public call answered with status 200 and the
    body [{error_code: 10007}] calls the callback with an error and with the
    data, both set. *)
Lemma error_and_data_both_set :
  map (fun c => (option_map info (fst c), snd c))
    (callbacks
       (@trace sample_host
          (fun _ => Responded 200 (obj [("error_code", JNum 10007)]))
          (@getTicker sample_host sample_client logResponse (JStr "btc_usd"))))
  = [(Some (JStr "Signatures do not match"), obj [("error_code", JNum 10007)])].
Proof. vm_compute. reflexivity. Qed.

(** A private call answered with status 200 and the body [100% sure]: the
    body does not parse, building the parse error throws, and the callback
    is never called. *)
Example percent_body_no_callback :
  callbacks
    (@trace sample_host (fun _ => Responded 200 (JStr "100% sure"))
       (@getUserInfo sample_host sample_client logResponse))
  = []
  /\ @handler sample_host
       {| opt_url := "https://www.okex.com/api/v1/userinfo.do";
          opt_method := "POST"; opt_headers := headers;
          opt_timeout := JUndefined; opt_qs := JUndefined;
          opt_form := obj [("api_key", JStr "key")];
          opt_json := JUndefined |}
       "POST request" logResponse (Responded 200 (JStr "100% sure"))
     = ([], Thrown "Error: too few args to sprintf").
Proof. split; vm_compute; reflexivity. Qed.

(** C7, as stated, fails: a public call answered with status 500 and a body
    holding [error_code] is reported as the exchange error of that code, not
    as the HTTP error of status 500. *)
Lemma http_500_reported_as_exchange_error :
  map (fun c => (option_map name (fst c), option_map info (fst c), snd c))
    (callbacks
       (@trace sample_host
          (fun _ => Responded 500 (obj [("error_code", JNum 10002)]))
          (@getTicker sample_host sample_client logResponse (JStr "btc_usd"))))
  = [(Some (JNum 10002), Some (JStr "System Error"),
      obj [("error_code", JNum 10002)])]
  /\ name (http_error "OKEX.executeRequest()" "GET request" 500) = JNum 500
  /\ info (http_error "OKEX.executeRequest()" "GET request" 500) = JUndefined.
Proof. vm_compute. repeat split. Qed.

(** ** Endpoint methods *)

Lemma has_set_prop_ne (k k' : string) (v o : value) :
  k <> k' -> has (set_prop k v o) k' = has o k'.
Proof.
  intros Hne. destruct o as [| | | | | | |fn props]; try reflexivity.
  cbn [set_prop has]. f_equal.
  induction props as [|[k0 v0] props IH]; cbn [set_assoc assoc].
  - destruct (String.eqb_spec k' k); [congruence | reflexivity].
  - destruct (String.eqb_spec k k0) as [->|Hk]; cbn [assoc].
    + destruct (String.eqb_spec k' k0); [congruence | reflexivity].
    + destruct (String.eqb k' k0); [reflexivity | exact IH].
Qed.

Lemma get_set_prop_ne (k k' : string) (v o : value) :
  k <> k' -> get (set_prop k v o) k' = get o k'.
Proof.
  intros Hne. destruct o as [| | | | | | |fn props]; try reflexivity.
  cbn [set_prop get].
  assert (Ha : assoc k' (set_assoc k v props) = assoc k' props);
    [|now rewrite Ha].
  induction props as [|[k0 v0] props IH]; cbn [set_assoc assoc].
  - destruct (String.eqb_spec k' k); [congruence | reflexivity].
  - destruct (String.eqb_spec k k0) as [->|Hk]; cbn [assoc].
    + destruct (String.eqb_spec k' k0); [congruence | reflexivity].
    + destruct (String.eqb k' k0); [reflexivity | exact IH].
Qed.

Lemma assoc_set_assoc (k : string) (v : value) (props : list (string * value)) :
  assoc k (set_assoc k v props) = Some v.
Proof.
  induction props as [|[k0 v0] props IH]; cbn [set_assoc assoc].
  - now rewrite String.eqb_refl.
  - destruct (String.eqb_spec k k0) as [->|Hk]; cbn [assoc].
    + now rewrite String.eqb_refl.
    + destruct (String.eqb_spec k k0); [congruence | exact IH].
Qed.

Lemma get_set_prop (k : string) (v o : value) :
  isObject o = true -> get (set_prop k v o) k = v /\ has (set_prop k v o) k = true.
Proof.
  destruct o as [| | | | | | |fn props]; try discriminate. intros _.
  cbn [set_prop get has]. rewrite assoc_set_assoc. split; [reflexivity|].
  apply bool_decide_eq_true. eauto.
Qed.

Lemma isObject_set_prop (k : string) (v o : value) :
  isObject (set_prop k v o) = isObject o.
Proof. now destruct o. Qed.

Lemma isObject_set_if (c : bool) (k : string) (v o : value) :
  isObject (set_if c k v o) = isObject o.
Proof. destruct c; [apply isObject_set_prop | reflexivity]. Qed.

Lemma isObject_handleContractType (params contract_type : value) :
  isObject (handleContractType params contract_type) = isObject params.
Proof.
  unfold handleContractType. now rewrite isObject_set_if, isObject_set_prop.
Qed.

Lemma has_set_if_ne (c : bool) (k k' : string) (v o : value) :
  k <> k' -> has (set_if c k v o) k' = has o k'.
Proof. intros Hne. destruct c; [now apply has_set_prop_ne | reflexivity]. Qed.


Lemma has_handleContractType_ne (k : string) (params contract_type : value) :
  "contract_type" <> k ->
  has (handleContractType params contract_type) k = has params k.
Proof.
  intros Hne. unfold handleContractType.
  now rewrite has_set_if_ne, has_set_prop_ne.
Qed.

Lemma handleContractType_default (params : value) :
  isObject params = true ->
  get (handleContractType params JUndefined) "contract_type" = JStr "quarter"
  /\ has (handleContractType params JUndefined) "contract_type" = true.
Proof. intros Hp. unfold handleContractType. now apply get_set_prop. Qed.

Section Sent.

Context `{Host}.
Variables (self : OKEX) (callback : value).
Hypothesis callback_function : is_function callback = true.

Lemma sent_public (method : string) (params : value) :
  isObject params = true ->
  sent_params (publicRequest self method params callback) = [params].
Proof.
  intros Hp. rewrite (publicRequest_issue _ _ _ _ Hp callback_function).
  reflexivity.
Qed.

Lemma sent_private (method : string) (params : value) :
  truthy (api_key self) = true -> truthy (secret self) = true ->
  isObject params = true ->
  sent_params (privateRequest self method params callback)
  = [set_prop "sign"
       (JStr (signMessage self (set_prop "api_key" (api_key self) params)))
       (set_prop "api_key" (api_key self) params)].
Proof.
  intros Hk Hs Hp.
  rewrite (privateRequest_issue _ _ _ _ Hk Hs Hp callback_function).
  unfold sent_params. cbn [fst requests flat_map app map].
  unfold wire_params. cbn [opt_form].
  destruct params; try discriminate. reflexivity.
Qed.

End Sent.

(** C8. [addTrade(cb, 'btc_cny', 'buy', '1', '100')] on a client with
    credentials issues one POST to [trade.do] whose form holds [symbol],
    [type], [amount], [price], [api_key] and [sign], where [sign] is the
    uppercase MD5 of the canonical string of the other five fields followed
    by [&secret_key=] and the secret. *)
Theorem addTrade_signed_post `{Host} (self : OKEX) (callback : value) :
  truthy (api_key self) = true -> truthy (secret self) = true ->
  is_function callback = true ->
  let fields :=
    [("symbol", JStr "btc_cny"); ("type", JStr "buy"); ("amount", JStr "1");
     ("price", JStr "100"); ("api_key", api_key self)] in
  let canonical :=
    "amount=1&api_key=" +:+ to_string (api_key self)
    +:+ "&price=100&symbol=btc_cny&type=buy" in
  let sign :=
    toUpperCase (MD5.md5 (canonical +:+ "&secret_key=" +:+ to_string (secret self))) in
  canonical_string (obj fields) = canonical
  /\ signMessage self (obj fields) = sign
  /\ requests
       (fst (addTrade self callback (JStr "btc_cny") (JStr "buy") (JStr "1")
               (JStr "100")))
     = [ {| opt_url := to_string (server self) +:+ "/api/v1/trade.do";
            opt_method := "POST";
            opt_headers := headers;
            opt_timeout := JUndefined;
            opt_qs := JUndefined;
            opt_form := obj (fields ++ [("sign", JStr sign)]);
            opt_json := JUndefined |} ].
Proof.
  intros Hk Hs Hf fields canonical sign.
  assert (Hc : canonical_string (obj fields) = canonical).
  { unfold canonical_string, canonical_pairs.
    replace (sort (keys (obj fields)))
      with ["amount"; "api_key"; "price"; "symbol"; "type"]
      by (vm_compute; reflexivity).
    unfold canonical. reflexivity. }
  assert (Hsign : signMessage self (obj fields) = sign).
  { unfold signMessage. cbv zeta. rewrite formatParameters_spec, Hc.
    reflexivity. }
  split; [exact Hc|]. split; [exact Hsign|].
  unfold addTrade.
  rewrite privateRequest_issue by (assumption || reflexivity).
  cbn [fst requests flat_map app].
  change (set_prop "api_key" (api_key self)
            (set_if (truthy (JStr "100")) "price" (JStr "100")
               (set_if (truthy (JStr "1")) "amount" (JStr "1")
                  (obj [("symbol", JStr "btc_cny"); ("type", JStr "buy")]))))
    with (obj fields).
  rewrite Hsign. reflexivity.
Qed.

Lemma addTrade_signed_post_witness :
  truthy (api_key sample_client) = true
  /\ truthy (secret sample_client) = true
  /\ is_function logResponse = true
  /\ signMessage sample_client
       (obj [("symbol", JStr "btc_cny"); ("type", JStr "buy");
             ("amount", JStr "1"); ("price", JStr "100");
             ("api_key", JStr "key")])
     = toUpperCase
         (MD5.md5
            (("amount=1&api_key=" +:+ "key" +:+ "&price=100&symbol=btc_cny&type=buy")
             +:+ "&secret_key=" +:+ "secret")).
Proof.
  split; [reflexivity|]. split; [reflexivity|]. split; [reflexivity|].
  exact (proj1 (proj2 (@addTrade_signed_post sample_host sample_client
                         logResponse eq_refl eq_refl eq_refl))).
Defined.

Example addTrade_sign_value :
  map (fun o => get (opt_form o) "sign")
    (requests
       (fst (@addTrade sample_host sample_client logResponse (JStr "btc_cny")
               (JStr "buy") (JStr "1") (JStr "100"))))
  = [JStr "11D15EB00BA8532EFCF72D8C9C79DC8A"].
Proof. vm_compute. reflexivity. Qed.

Lemma set_if_false (k : string) (v o : value) : set_if false k v o = o.
Proof. reflexivity. Qed.

Lemma get_set_if_ne (c : bool) (k k' : string) (v o : value) :
  k <> k' -> get (set_if c k v o) k' = get o k'.
Proof. intros Hne. destruct c; [now apply get_set_prop_ne | reflexivity]. Qed.

Lemma get_handleContractType_ne (k : string) (params contract_type : value) :
  "contract_type" <> k ->
  get (handleContractType params contract_type) k = get params k.
Proof.
  intros Hne. unfold handleContractType.
  now rewrite get_set_if_ne, get_set_prop_ne.
Qed.

(** The side condition of [sent_public] and [sent_private]. *)
Ltac object :=
  repeat first [ rewrite isObject_handleContractType
               | rewrite isObject_set_if
               | rewrite isObject_set_prop ];
  reflexivity.

(** Peel the assignments of other keys off a lookup. *)
Ltac lookup :=
  change (truthy JUndefined) with false;
  change (negb (isUndefined JUndefined)) with false;
  repeat first [ rewrite set_if_false
               | rewrite has_set_prop_ne by discriminate
               | rewrite get_set_prop_ne by discriminate
               | rewrite has_set_if_ne by discriminate
               | rewrite get_set_if_ne by discriminate
               | rewrite has_handleContractType_ne by discriminate
               | rewrite get_handleContractType_ne by discriminate ].

Ltac omitted :=
  eexists; split; [reflexivity|]; lookup; reflexivity.

Ltac defaulted :=
  eexists; split; [reflexivity|]; lookup;
  first [ split; reflexivity
        | apply and_comm, handleContractType_default; object ].

Section Optional.

Context `{Host}.
Variables (self : OKEX) (callback : value).
Hypothesis callback_function : is_function callback = true.

Lemma guarded_public (symbol a b c : value) :
  omits (getTrades self callback symbol JUndefined) "since"
  /\ omits (getKline self callback symbol JUndefined a b) "type"
  /\ omits (getKline self callback symbol a JUndefined b) "size"
  /\ omits (getKline self callback symbol a b JUndefined) "since"
  /\ omits (getFutureKline self callback symbol JUndefined a b c) "type"
  /\ omits (getFutureKline self callback symbol a JUndefined b c) "size"
  /\ omits (getFutureKline self callback symbol a b JUndefined c) "since".
Proof.
  unfold omits, getTrades, getKline, getFutureKline.
  rewrite !sent_public by (assumption || object).
  repeat split; omitted.
Qed.

Lemma defaulted_public (symbol a b c : value) :
  sends (getDepth self callback symbol JUndefined a) "size" (JNum 200)
  /\ sends (getDepth self callback symbol a JUndefined) "merge" (JNum 1)
  /\ sends (getFutureDepth self callback symbol JUndefined a b) "size" (JNum 200)
  /\ sends (getFutureDepth self callback symbol a JUndefined b) "merge" (JNum 1)
  /\ sends (getFutureTicker self callback symbol JUndefined)
       "contract_type" (JStr "quarter")
  /\ sends (getFutureDepth self callback symbol a b JUndefined)
       "contract_type" (JStr "quarter")
  /\ sends (getFutureTrades self callback symbol JUndefined)
       "contract_type" (JStr "quarter")
  /\ sends (getFutureKline self callback symbol a b c JUndefined)
       "contract_type" (JStr "quarter")
  /\ sends (getFutureHoldAmount self callback symbol JUndefined)
       "contract_type" (JStr "quarter").
Proof.
  unfold sends, getDepth, getFutureDepth, getFutureTicker, getFutureTrades,
    getFutureKline, getFutureHoldAmount.
  rewrite !sent_public by (assumption || object).
  repeat apply conj; defaulted.
Qed.

Hypothesis api_key_given : truthy (api_key self) = true.
Hypothesis secret_given : truthy (secret self) = true.

Lemma guarded_private (symbol type a b c : value) :
  omits (addTrade self callback symbol type JUndefined a) "amount"
  /\ omits (addTrade self callback symbol type a JUndefined) "price"
  /\ omits (addFutureTrade self callback symbol type JUndefined a b c) "amount"
  /\ omits (addFutureTrade self callback symbol type a JUndefined b c) "price"
  /\ omits (addFutureTrade self callback symbol type a b JUndefined c)
       "match_price".
Proof.
  unfold omits, addTrade, addFutureTrade.
  rewrite !sent_private by (assumption || object).
  repeat split; omitted.
Qed.

Lemma defaulted_private (symbol type a b c : value) :
  sends (getFuturePosition self callback symbol JUndefined)
    "contract_type" (JStr "quarter")
  /\ sends (addFutureTrade self callback symbol type a b c JUndefined)
       "contract_type" (JStr "quarter")
  /\ sends (cancelFutureOrder self callback symbol a JUndefined)
       "contract_type" (JStr "quarter")
  /\ sends (getFutureOrderInfo self callback symbol a b JUndefined)
       "contract_type" (JStr "quarter")
  /\ sends (getFuturePositionFix self callback symbol JUndefined)
       "contract_type" (JStr "quarter").
Proof.
  unfold sends, getFuturePosition, addFutureTrade, cancelFutureOrder,
    getFutureOrderInfo, getFuturePositionFix.
  rewrite !sent_private by (assumption || object).
  repeat apply conj; defaulted.
Qed.

End Optional.

(** C9 (as the code has it). An argument a method guards with
    [if (arg)] is left out of the mapping it sends when the caller does not
    supply it: [since] of [getTrades]; [type], [size], [since] of [getKline]
    and [getFutureKline]; [amount], [price] of [addTrade]; [amount],
    [price], [match_price] of [addFutureTrade].  [size] and [merge] of
    [getDepth] and [getFutureDepth] are sent with the defaults 200 and 1, and
    [contract_type] of the futures methods with the default [quarter]. *)
Theorem optional_arguments_omitted_or_defaulted `{Host} (self : OKEX)
  (callback : value) :
  is_function callback = true ->
  (forall symbol a b c : value,
     omits (getTrades self callback symbol JUndefined) "since"
     /\ omits (getKline self callback symbol JUndefined a b) "type"
     /\ omits (getKline self callback symbol a JUndefined b) "size"
     /\ omits (getKline self callback symbol a b JUndefined) "since"
     /\ omits (getFutureKline self callback symbol JUndefined a b c) "type"
     /\ omits (getFutureKline self callback symbol a JUndefined b c) "size"
     /\ omits (getFutureKline self callback symbol a b JUndefined c) "since")
  /\ (forall symbol a b c : value,
        sends (getDepth self callback symbol JUndefined a) "size" (JNum 200)
        /\ sends (getDepth self callback symbol a JUndefined) "merge" (JNum 1)
        /\ sends (getFutureDepth self callback symbol JUndefined a b)
             "size" (JNum 200)
        /\ sends (getFutureDepth self callback symbol a JUndefined b)
             "merge" (JNum 1)
        /\ sends (getFutureTicker self callback symbol JUndefined)
             "contract_type" (JStr "quarter")
        /\ sends (getFutureDepth self callback symbol a b JUndefined)
             "contract_type" (JStr "quarter")
        /\ sends (getFutureTrades self callback symbol JUndefined)
             "contract_type" (JStr "quarter")
        /\ sends (getFutureKline self callback symbol a b c JUndefined)
             "contract_type" (JStr "quarter")
        /\ sends (getFutureHoldAmount self callback symbol JUndefined)
             "contract_type" (JStr "quarter"))
  /\ (truthy (api_key self) = true -> truthy (secret self) = true ->
      forall symbol type a b c : value,
        (omits (addTrade self callback symbol type JUndefined a) "amount"
         /\ omits (addTrade self callback symbol type a JUndefined) "price"
         /\ omits (addFutureTrade self callback symbol type JUndefined a b c)
              "amount"
         /\ omits (addFutureTrade self callback symbol type a JUndefined b c)
              "price"
         /\ omits (addFutureTrade self callback symbol type a b JUndefined c)
              "match_price")
        /\ (sends (getFuturePosition self callback symbol JUndefined)
              "contract_type" (JStr "quarter")
            /\ sends (addFutureTrade self callback symbol type a b c JUndefined)
                 "contract_type" (JStr "quarter")
            /\ sends (cancelFutureOrder self callback symbol a JUndefined)
                 "contract_type" (JStr "quarter")
            /\ sends (getFutureOrderInfo self callback symbol a b JUndefined)
                 "contract_type" (JStr "quarter")
            /\ sends (getFuturePositionFix self callback symbol JUndefined)
                 "contract_type" (JStr "quarter"))).
Proof.
  intros Hf. split; [|split].
  - intros symbol a b c. now apply guarded_public.
  - intros symbol a b c. now apply defaulted_public.
  - intros Hk Hs symbol type a b c. split.
    + now apply guarded_private.
    + now apply defaulted_private.
Qed.

Lemma optional_arguments_omitted_or_defaulted_witness :
  is_function logResponse = true
  /\ omits (@getKline sample_host sample_client logResponse (JStr "btc_usd")
              JUndefined JUndefined JUndefined) "type"
  /\ sent_params (@getKline sample_host sample_client logResponse
                    (JStr "btc_usd") JUndefined JUndefined JUndefined)
     = [obj [("symbol", JStr "btc_usd")]].
Proof.
  split; [reflexivity|]. split; [|reflexivity].
  exact (proj1 (proj2 (proj1 (@optional_arguments_omitted_or_defaulted
                                sample_host sample_client logResponse eq_refl)
                         (JStr "btc_usd") JUndefined JUndefined JUndefined))).
Defined.

(** C9, as stated, fails: [getDepth] called without [size] and [merge]
    does not leave the keys out, it sends [size=200] and [merge=1]. *)
Lemma getDepth_sends_unsupplied_size :
  sent_params (@getDepth sample_host sample_client logResponse (JStr "btc_usd")
                 JUndefined JUndefined)
  = [obj [("symbol", JStr "btc_usd"); ("size", JNum 200); ("merge", JNum 1)]]
  /\ ~ omits (@getDepth sample_host sample_client logResponse (JStr "btc_usd")
                JUndefined JUndefined) "size".
Proof.
  split; [reflexivity|].
  intros (p & Hp & Hhas). injection Hp as <-. discriminate.
Qed.

(** An argument a method enters without a guard is in the mapping also when
    it is not supplied, with the value [undefined], and is signed as such. *)
Example getTradeHistory_since_undefined :
  map keys
    (sent_params (@getTradeHistory sample_host sample_client logResponse
                    (JStr "btc_usd") JUndefined))
  = [["symbol"; "since"; "api_key"; "sign"]]
  /\ formatParameters
       (obj [("symbol", JStr "btc_usd"); ("since", JUndefined);
             ("api_key", JStr "key")])
     = "api_key=key&since=undefined&symbol=btc_usd".
Proof. split; vm_compute; reflexivity. Qed.

(** C10. [getLendDepth] makes the public request of the [kline] endpoint
    with the mapping [{symbol}]: it is the call [getKline] makes when given
    the symbol alone, and every request it issues is a GET of [kline.do]. *)
Theorem getLendDepth_requests_kline `{Host} (self : OKEX)
  (callback symbol : value) :
  getLendDepth self callback symbol
  = publicRequest self "kline" (obj [("symbol", symbol)]) callback
  /\ getLendDepth self callback symbol
     = getKline self callback symbol JUndefined JUndefined JUndefined
  /\ (forall o : Options,
        o ∈ requests (fst (getLendDepth self callback symbol)) ->
        opt_method o = "GET"
        /\ opt_url o = to_string (server self) +:+ "/api/v1/kline.do"
        /\ opt_qs o = obj [("symbol", symbol)])
  /\ (is_function callback = true ->
      length (requests (fst (getLendDepth self callback symbol))) = 1%nat).
Proof.
  split; [reflexivity|]. split; [reflexivity|].
  unfold getLendDepth. destruct (is_function callback) eqn:Hf.
  - rewrite publicRequest_issue by (assumption || reflexivity).
    cbn [executeRequest fst requests flat_map app]. split; [|reflexivity].
    intros o Ho. apply list_elem_of_singleton in Ho. subst o.
    cbn [opt_method opt_url opt_qs]. repeat split.
  - unfold publicRequest. cbn [isObject obj negb].
    rewrite Hf, Bool.orb_true_r, (call_not_function _ _ _ Hf).
    split; [|discriminate]. intros o Ho. cbn in Ho.
    apply elem_of_nil in Ho. contradiction.
Qed.

Lemma getLendDepth_requests_kline_witness :
  is_function logResponse = true
  /\ map opt_url
       (requests (fst (@getLendDepth sample_host sample_client logResponse
                         (JStr "btc_usd"))))
     = ["https://www.okex.com/api/v1/kline.do"]
  /\ length (requests (fst (@getLendDepth sample_host sample_client logResponse
                              (JStr "btc_usd"))))
     = 1%nat.
Proof.
  split; [reflexivity|]. split; [reflexivity|].
  exact (proj2 (proj2 (proj2 (@getLendDepth_requests_kline sample_host
                                sample_client logResponse (JStr "btc_usd"))))
           eq_refl).
Defined.

(** * Further properties of the client *)

(** ** Requests issued *)

Lemma requests_app (a b : list event) :
  requests (a ++ b)%list = (requests a ++ requests b)%list.
Proof. unfold requests. apply flat_map_app. Qed.

Section Issued.

Context `{Host}.

Lemma handler_no_request (options : Options) (requestDesc : string)
  (callback : value) (r : reply) :
  requests (fst (handler options requestDesc callback r)) = [].
Proof.
  unfold handler. destruct (classify options requestDesc r) as [c|exn];
    [|reflexivity].
  destruct (override requestDesc c). apply call_no_request.
Qed.

Lemma respond_no_request (network : Options -> reply) (events : list event) :
  requests (flat_map (respond network) events) = [].
Proof.
  induction events as [|e events IH]; [reflexivity|].
  cbn [flat_map]. rewrite requests_app, IH, app_nil_r.
  destruct e; try reflexivity. apply handler_no_request.
Qed.

Lemma trace_requests (network : Options -> reply) (o : outcome) :
  requests (trace network o) = requests (fst o).
Proof.
  unfold trace. now rewrite requests_app, respond_no_request, app_nil_r.
Qed.

Lemma publicRequest_refused (self : OKEX) (method : string)
  (params callback : value) :
  isObject params && is_function callback = false ->
  requests (fst (publicRequest self method params callback)) = [].
Proof.
  intros Hno. unfold publicRequest.
  destruct (isObject params); cbn [negb]; [|apply call_no_request].
  cbn [andb] in Hno. rewrite Hno, Bool.orb_true_r. apply call_no_request.
Qed.

Lemma privateRequest_refused (self : OKEX) (method : string)
  (params callback : value) :
  truthy (api_key self) && truthy (secret self) && isObject params
  && is_function callback = false ->
  requests (fst (privateRequest self method params callback)) = [].
Proof.
  intros Hno. unfold privateRequest.
  destruct (truthy (api_key self)); cbn [negb orb]; [|apply call_no_request].
  destruct (truthy (secret self)); cbn [negb orb]; [|apply call_no_request].
  destruct (isObject params); cbn [negb]; [|apply call_no_request].
  cbn [andb] in Hno. rewrite Hno, Bool.orb_true_r. apply call_no_request.
Qed.

(** X1. A call of a request function issues at most one request, and the
    handler of a response never issues another: whatever the transport
    answers, the requests of the whole trace are those of the call itself.
    A public call issues its request exactly when the parameters are an
    object and the callback a function; a private call needs truthy
    credentials as well. *)
Theorem one_request_per_call (network : Options -> reply) (self : OKEX)
  (method : string) (params callback : value) :
  requests (trace network (publicRequest self method params callback))
  = requests (fst (publicRequest self method params callback))
  /\ requests (trace network (privateRequest self method params callback))
     = requests (fst (privateRequest self method params callback))
  /\ length (requests (fst (publicRequest self method params callback)))
     = (if isObject params && is_function callback then 1 else 0)%nat
  /\ length (requests (fst (privateRequest self method params callback)))
     = (if truthy (api_key self) && truthy (secret self) && isObject params
           && is_function callback
        then 1 else 0)%nat.
Proof.
  split; [apply trace_requests|]. split; [apply trace_requests|]. split.
  - destruct (isObject params && is_function callback) eqn:Hok.
    + apply andb_prop in Hok as [Hp Hf].
      now rewrite (publicRequest_issue _ _ _ _ Hp Hf).
    + now rewrite publicRequest_refused.
  - destruct (truthy (api_key self) && truthy (secret self) && isObject params
              && is_function callback) eqn:Hok.
    + apply andb_prop in Hok as [Hok Hf]. apply andb_prop in Hok as [Hok Hp].
      apply andb_prop in Hok as [Hk Hs].
      now rewrite (privateRequest_issue _ _ _ _ Hk Hs Hp Hf).
    + now rewrite privateRequest_refused.
Qed.

(** X2. A client built without a server or a timeout, or with falsy ones
    such as the timeout 0, sends its public requests to
    [https://www.okex.com] with the timeout 20000; a truthy server or
    timeout is used as given. *)
Theorem constructor_defaults (api_key secret server timeout : value)
  (method : string) (params callback : value) :
  isObject params = true -> is_function callback = true ->
  requests
    (fst (publicRequest (new_OKEX api_key secret server timeout) method params
            callback))
  = [ {| opt_url :=
           (if truthy server then to_string server else "https://www.okex.com")
           +:+ "/api/v1/" +:+ method +:+ ".do";
         opt_method := "GET";
         opt_headers := headers;
         opt_timeout := if truthy timeout then timeout else JNum 20000;
         opt_qs := params;
         opt_form := JUndefined;
         opt_json := obj [] |} ].
Proof.
  intros Hp Hf. rewrite (publicRequest_issue _ _ _ _ Hp Hf).
  unfold executeRequest, new_OKEX, js_or. cbn [fst requests flat_map app].
  destruct (truthy server), (truthy timeout); reflexivity.
Qed.

End Issued.

Lemma constructor_defaults_witness :
  isObject (obj [("symbol", JStr "btc_usd")]) = true
  /\ is_function logResponse = true
  /\ map (fun o => (opt_url o, opt_timeout o))
       (requests
          (fst (@publicRequest sample_host
                  (new_OKEX JUndefined JUndefined (JStr EmptyString) (JNum 0))
                  "ticker" (obj [("symbol", JStr "btc_usd")]) logResponse)))
     = [("https://www.okex.com/api/v1/ticker.do", JNum 20000)].
Proof.
  split; [reflexivity|]. split; [reflexivity|].
  rewrite (@constructor_defaults sample_host JUndefined JUndefined
             (JStr EmptyString) (JNum 0) "ticker"
             (obj [("symbol", JStr "btc_usd")]) logResponse eq_refl eq_refl).
  reflexivity.
Defined.

(** X3. Every private request that is issued is a POST without a timeout
    whose form is the caller's parameters with [api_key] set to the client's
    key and [sign] set to the signature of the parameters with that key; a
    caller's own [api_key] or [sign] entry is overwritten, every other entry
    is passed on untouched.  What is logged before is the parameters with the
    key and without the new signature. *)
Theorem private_form_signed `{Host} (self : OKEX) (method : string)
  (params callback : value) :
  truthy (api_key self) = true -> truthy (secret self) = true ->
  isObject params = true -> is_function callback = true ->
  let keyed := set_prop "api_key" (api_key self) params in
  exists form requestDesc,
    fst (privateRequest self method params callback)
    = [ConsoleLog keyed;
       Request
         {| opt_url := to_string (server self) +:+ "/api/v1/" +:+ method +:+ ".do";
            opt_method := "POST";
            opt_headers := headers;
            opt_timeout := JUndefined;
            opt_qs := JUndefined;
            opt_form := form;
            opt_json := JUndefined |}
         requestDesc callback]
    /\ get form "api_key" = api_key self
    /\ get form "sign" = JStr (signMessage self keyed)
    /\ get keyed "api_key" = api_key self
    /\ has keyed "sign" = has params "sign"
    /\ forall k : string,
         k <> "api_key" -> k <> "sign" ->
         get form k = get params k /\ has form k = has params k.
Proof.
  intros Hk Hs Hp Hf keyed.
  rewrite (privateRequest_issue _ _ _ _ Hk Hs Hp Hf). fold keyed.
  eexists _, _. split; [reflexivity|].
  assert (Hkeyed : isObject keyed = true)
    by (unfold keyed; now rewrite isObject_set_prop).
  split; [|split; [|split; [|split]]].
  - rewrite get_set_prop_ne by discriminate. now apply get_set_prop.
  - now apply get_set_prop.
  - now apply get_set_prop.
  - unfold keyed. now rewrite has_set_prop_ne by discriminate.
  - intros k Hka Hks. unfold keyed.
    rewrite !get_set_prop_ne, !has_set_prop_ne by congruence. split; reflexivity.
Qed.

Lemma private_form_signed_witness :
  truthy (api_key sample_client) = true
  /\ map (fun o => get (opt_form o) "api_key")
       (requests
          (fst (@privateRequest sample_host sample_client "order_info"
                  (obj [("api_key", JStr "other"); ("order_id", JNum 7)])
                  logResponse)))
     = [JStr "key"].
Proof.
  split; [reflexivity|].
  destruct (@private_form_signed sample_host sample_client "order_info"
              (obj [("api_key", JStr "other"); ("order_id", JNum 7)])
              logResponse eq_refl eq_refl eq_refl eq_refl)
    as (form & requestDesc & Hfst & Hget & _).
  rewrite Hfst. cbn [requests flat_map app map opt_form].
  now rewrite Hget.
Defined.

(** X4. The private methods without parameters ([getUserInfo],
    [getFutureUserInfo], [getFutureUserInfoFix]) send the form
    [{api_key, sign}] where [sign] is the uppercase MD5 of
    [api_key=<key>&secret_key=<secret>]; the three differ in the endpoint
    only. *)
Theorem parameterless_private_form `{Host} (self : OKEX) (callback : value) :
  truthy (api_key self) = true -> truthy (secret self) = true ->
  is_function callback = true ->
  let form :=
    obj [("api_key", api_key self);
         ("sign",
          JStr (toUpperCase
                  (MD5.md5 ("api_key=" +:+ to_string (api_key self)
                            +:+ "&secret_key=" +:+ to_string (secret self)))))] in
  sent_params (getUserInfo self callback) = [form]
  /\ sent_params (getFutureUserInfo self callback) = [form]
  /\ sent_params (getFutureUserInfoFix self callback) = [form]
  /\ map opt_url (requests (fst (getUserInfo self callback)))
     = [to_string (server self) +:+ "/api/v1/userinfo.do"]
  /\ map opt_url (requests (fst (getFutureUserInfo self callback)))
     = [to_string (server self) +:+ "/api/v1/future_userinfo.do"]
  /\ map opt_url (requests (fst (getFutureUserInfoFix self callback)))
     = [to_string (server self) +:+ "/api/v1/future_userinfo_4fix.do"].
Proof.
  intros Hk Hs Hf form.
  assert (Hsign : signMessage self (obj [("api_key", api_key self)])
                  = toUpperCase
                      (MD5.md5 ("api_key=" +:+ to_string (api_key self)
                                +:+ "&secret_key=" +:+ to_string (secret self)))).
  { unfold signMessage. cbv zeta.
    rewrite formatParameters_spec. unfold canonical_string, canonical_pairs.
    replace (sort (keys (obj [("api_key", api_key self)]))) with ["api_key"]
      by reflexivity.
    unfold pair_of. cbn [map String.concat get obj assoc String.eqb Ascii.eqb
                           Bool.eqb].
    now rewrite append_assoc. }
  unfold getUserInfo, getFutureUserInfo, getFutureUserInfoFix.
  rewrite !(sent_private _ _ Hf) by (assumption || reflexivity).
  rewrite !privateRequest_issue by (assumption || reflexivity).
  change (set_prop "api_key" (api_key self) (obj []))
    with (obj [("api_key", api_key self)]).
  rewrite Hsign. repeat split.
Qed.

Lemma parameterless_private_form_witness :
  truthy (api_key sample_client) = true
  /\ truthy (secret sample_client) = true
  /\ is_function logResponse = true
  /\ map keys (sent_params (@getUserInfo sample_host sample_client logResponse))
     = [["api_key"; "sign"]].
Proof.
  split; [reflexivity|]. split; [reflexivity|]. split; [reflexivity|].
  rewrite (proj1 (@parameterless_private_form sample_host sample_client
                    logResponse eq_refl eq_refl eq_refl)).
  reflexivity.
Defined.

(** ** Outcomes of a whole request *)

Lemma status_ok (statusCode : Z) :
  (200 <= statusCode < 300)%Z ->
  ((statusCode <? 200)%Z || (statusCode >=? 300)%Z) = false.
Proof.
  intros Hs. apply Bool.orb_false_iff. split.
  - apply Z.ltb_ge. lia.
  - rewrite Z.geb_leb. apply Z.leb_gt. lia.
Qed.

Section EndToEnd.

Context `{Host}.
Variables (self : OKEX) (method : string) (params callback : value).
Hypothesis params_object : isObject params = true.
Hypothesis callback_function : is_function callback = true.

(** X5. A public request whose response has a status in [200, 300) and an
    object without [error_code] as data ends in one call of the callback,
    after the request was issued, with [null] and that object; the client's
    credentials play no part. *)
Theorem public_success (statusCode : Z) (data : value) :
  (200 <= statusCode < 300)%Z ->
  isObject data = true -> has data "error_code" = false ->
  exists options requestDesc,
    trace (fun _ => Responded statusCode data)
      (publicRequest self method params callback)
    = [Request options requestDesc callback; Callback None data]
    /\ opt_qs options = params.
Proof.
  intros Hs Hd Hhas.
  rewrite (publicRequest_issue _ _ _ _ params_object callback_function).
  unfold executeRequest, trace. cbn [fst flat_map respond app].
  rewrite (handler_ok _ _ _ _ (None, data) callback_function).
  - rewrite override_keep by exact Hhas. eexists _, _. split; reflexivity.
  - unfold classify. rewrite (status_ok _ Hs). cbn [opt_form opt_json truthy obj].
    now rewrite Hd.
Qed.

Hypothesis api_key_given : truthy (api_key self) = true.
Hypothesis secret_given : truthy (secret self) = true.

(** X6. A private request whose response has a status in [200, 300) and a
    body that parses to a value without [error_code] ends in one call of the
    callback with [null] and the parsed value, not the text of the body. *)
Theorem private_success (statusCode : Z) (data returnObject : value) :
  (200 <= statusCode < 300)%Z ->
  JSON_parse (to_string data) = Parsed returnObject ->
  has returnObject "error_code" = false ->
  callbacks
    (trace (fun _ => Responded statusCode data)
       (privateRequest self method params callback))
  = [(None, returnObject)].
Proof.
  intros Hs Hparse Hhas.
  rewrite (privateRequest_issue _ _ _ _ api_key_given secret_given
             params_object callback_function).
  unfold trace. cbn [fst flat_map respond app callbacks].
  assert (Hform : truthy
                    (set_prop "sign"
                       (JStr (signMessage self
                                (set_prop "api_key" (api_key self) params)))
                       (set_prop "api_key" (api_key self) params)) = true).
  { destruct params; try discriminate. reflexivity. }
  rewrite (handler_ok _ _ _ _ (None, returnObject) callback_function).
  - now rewrite override_keep by exact Hhas.
  - unfold classify. rewrite (status_ok _ Hs). cbn [opt_form].
    now rewrite Hform, Hparse.
Qed.

End EndToEnd.

Lemma public_success_witness :
  isObject (obj [("symbol", JStr "btc_usd")]) = true
  /\ is_function logResponse = true
  /\ (200 <= 200 < 300)%Z
  /\ callbacks
       (@trace sample_host
          (fun _ => Responded 200 (obj [("asks", JNull); ("bids", JNull)]))
          (@getTicker sample_host anonymous_client logResponse (JStr "btc_usd")))
     = [(None, obj [("asks", JNull); ("bids", JNull)])].
Proof.
  assert (Hs : (200 <= 200 < 300)%Z) by lia.
  split; [reflexivity|]. split; [reflexivity|]. split; [exact Hs|].
  destruct (@public_success sample_host anonymous_client "ticker"
              (obj [("symbol", JStr "btc_usd")]) logResponse eq_refl eq_refl
              200 (obj [("asks", JNull); ("bids", JNull)]) Hs eq_refl eq_refl)
    as (options & requestDesc & Htrace & _).
  unfold getTicker. rewrite Htrace. reflexivity.
Defined.

Lemma private_success_witness :
  truthy (api_key sample_client) = true
  /\ truthy (secret sample_client) = true
  /\ @JSON_parse sample_host (to_string (JStr "{}")) = Parsed (obj [])
  /\ callbacks
       (@trace sample_host (fun _ => Responded 200 (JStr "{}"))
          (@getUserInfo sample_host sample_client logResponse))
     = [(None, obj [])].
Proof.
  assert (Hs : (200 <= 200 < 300)%Z) by lia.
  split; [reflexivity|]. split; [reflexivity|]. split; [reflexivity|].
  exact (@private_success sample_host sample_client "userinfo" (obj [])
           logResponse eq_refl eq_refl eq_refl eq_refl 200 (JStr "{}") (obj [])
           Hs eq_refl eq_refl).
Defined.

Section Failures.

Context `{Host}.
Variables (options : Options) (requestDesc : string) (callback : value).
Hypothesis callback_function : is_function callback = true.

(** X7. When the transport fails, the callback is called once with the
    transport error and no data, whatever the kind of request: the error's
    name is the code of the cause and its message is
    [OKEX.executeRequest() failed <description>: <message of the cause>]. *)
Theorem transport_failure (err : NodeError) :
  let e := transport_error "OKEX.executeRequest()" requestDesc err in
  handler options requestDesc callback (Failed err)
  = ([Callback (Some e) JUndefined], Returned)
  /\ name e = err_code err
  /\ info e = JUndefined
  /\ message e
     = "OKEX.executeRequest() failed " +:+ requestDesc +:+ ": "
       +:+ err_message err.
Proof.
  intros e. split; [|split; [|split]]; try reflexivity.
  - now rewrite (handler_ok _ _ _ _ (Some e, JUndefined) callback_function).
  - destruct (transport_error_constructed "OKEX.executeRequest()" requestDesc
                err) as (e' & _ & He & Hm).
    unfold e. rewrite He. exact Hm.
Qed.

(** X8. A response with a status in [200, 300) that is not structured
    data.  For a form request whose body does not parse: when the body
    holds no percent sign, the callback is called once with the parse
    error (its name stays [VError], its message holds the body and the
    cause) and with the body as received; when the first percent sign of
    the body starts a directive other than [%%], building the parse error
    throws and the callback is not called.  For a json request whose data
    is not an object, the callback is called once with the
    could-not-parse error of the handler and the data as received. *)
Theorem malformed_response (statusCode : Z) (data : value) :
  (200 <= statusCode < 300)%Z -> isObject data = false ->
  (forall e : string,
     truthy (opt_form options) = true ->
     JSON_parse (to_string data) = SyntaxError e ->
     (plain (to_string data) ->
      handler options requestDesc callback (Responded statusCode data)
      = ([Callback
            (Some {| message := "Could not parse response from server: "
                                +:+ to_string data +:+ ": " +:+ e;
                     name := JStr "VError";
                     info := JUndefined |})
            data],
         Returned))
     /\ (forall (text rest after : string) (d : directive),
           to_string data = text +:+ String "%" rest ->
           plain text -> directive_of rest = Some (d, after) ->
           conversion d <> "%"%char ->
           handler options requestDesc callback (Responded statusCode data)
           = ([], Thrown "Error: too few args to sprintf")))
  /\ (truthy (opt_form options) = false -> truthy (opt_json options) = true ->
      handler options requestDesc callback (Responded statusCode data)
      = ([Callback
            (Some (unparsed_error "OKEX.executeRequest()" requestDesc data))
            data],
         Returned)).
Proof.
  intros Hs Hd.
  assert (Hhas : has data "error_code" = false) by (now destruct data).
  split.
  - intros e Hform Hparse. split.
    + intros Hp.
      erewrite handler_ok; [|exact callback_function|].
      2: { unfold classify. rewrite (status_ok _ Hs), Hform, Hparse.
           now rewrite (new_parse_error_plain e data Hp). }
      now rewrite override_keep by exact Hhas.
    + intros text rest after d Hdata Hp Hdir Hc.
      apply handler_throw.
      unfold classify. rewrite (status_ok _ Hs), Hform, Hparse.
      now rewrite (new_parse_error_throws e text rest after d data Hdata Hp Hdir Hc).
  - intros Hform Hjson.
    rewrite (handler_ok _ _ _ _
               (Some (unparsed_error "OKEX.executeRequest()" requestDesc data),
                data) callback_function).
    + now rewrite override_keep by exact Hhas.
    + unfold classify. now rewrite (status_ok _ Hs), Hform, Hjson, Hd.
Qed.

End Failures.

Lemma transport_failure_witness :
  is_function logResponse = true
  /\ fst (@handler sample_host
            {| opt_url := "https://www.okex.com/api/v1/ticker.do";
               opt_method := "GET"; opt_headers := headers;
               opt_timeout := JNum 20000; opt_qs := obj [];
               opt_form := JUndefined; opt_json := obj [] |}
            "GET request" logResponse
            (Failed {| err_message := "connect ETIMEDOUT";
                       err_code := JStr "ETIMEDOUT" |}))
     = [Callback
          (Some (transport_error "OKEX.executeRequest()" "GET request"
                   {| err_message := "connect ETIMEDOUT";
                      err_code := JStr "ETIMEDOUT" |}))
          JUndefined].
Proof.
  split; [reflexivity|].
  now rewrite (proj1 (@transport_failure sample_host _ "GET request"
                        logResponse eq_refl _)).
Defined.

Lemma malformed_response_witness :
  let options :=
    {| opt_url := "https://www.okex.com/api/v1/userinfo.do";
       opt_method := "POST"; opt_headers := headers;
       opt_timeout := JUndefined; opt_qs := JUndefined;
       opt_form := obj [("api_key", JStr "key")];
       opt_json := JUndefined |} in
  is_function logResponse = true
  /\ (200 <= 200 < 300)%Z
  /\ isObject (JStr "<html>") = false
  /\ @JSON_parse sample_host (to_string (JStr "<html>"))
     = SyntaxError "Unexpected token in JSON"
  /\ plain (to_string (JStr "<html>"))
  /\ fst (@handler sample_host options "POST request" logResponse
            (Responded 200 (JStr "<html>")))
     = [Callback
          (Some {| message := "Could not parse response from server: <html>: Unexpected token in JSON";
                   name := JStr "VError";
                   info := JUndefined |})
          (JStr "<html>")]
  /\ @JSON_parse sample_host (to_string (JStr "100% sure"))
     = SyntaxError "Unexpected token in JSON"
  /\ directive_of " sure"
     = Some ({| flags := " "; width := 0; precision := false;
                conversion := "s" |}, "ure")
  /\ @handler sample_host options "POST request" logResponse
       (Responded 200 (JStr "100% sure"))
     = ([], Thrown "Error: too few args to sprintf").
Proof.
  intros options.
  assert (Hs : (200 <= 200 < 300)%Z) by lia.
  assert (Hp : plain (to_string (JStr "<html>"))).
  { unfold plain. cbn. intros Hin.
    repeat (destruct Hin as [Hin|Hin]; [discriminate|]). exact Hin. }
  assert (Ht : plain "100").
  { unfold plain. cbn. intros Hin.
    repeat (destruct Hin as [Hin|Hin]; [discriminate|]). exact Hin. }
  split; [reflexivity|]. split; [exact Hs|]. split; [reflexivity|].
  split; [reflexivity|]. split; [exact Hp|].
  split; [|split; [reflexivity|split; [reflexivity|]]].
  - pose proof (@malformed_response sample_host options "POST request"
                  logResponse eq_refl 200 (JStr "<html>") Hs eq_refl)
      as [Hform _].
    destruct (Hform "Unexpected token in JSON" eq_refl eq_refl) as [Hcall _].
    rewrite (Hcall Hp). reflexivity.
  - pose proof (@malformed_response sample_host options "POST request"
                  logResponse eq_refl 200 (JStr "100% sure") Hs eq_refl)
      as [Hform _].
    destruct (Hform "Unexpected token in JSON" eq_refl eq_refl) as [_ Hthrow].
    exact (Hthrow "100" " sure" "ure" _ eq_refl Ht eq_refl
             ltac:(discriminate)).
Defined.

(** ** Parameters of the endpoint methods *)

Lemma keys_set_prop (k : string) (v o : value) :
  isObject o = true ->
  keys (set_prop k v o) = if has o k then keys o else (keys o ++ [k])%list.
Proof.
  destruct o as [| | | | | | |fn props]; try discriminate. intros _.
  cbn [set_prop keys has].
  induction props as [|[k0 v0] props IH]; cbn [set_assoc assoc map fst app].
  - reflexivity.
  - destruct (String.eqb_spec k k0) as [->|Hne]; cbn [map fst].
    + rewrite bool_decide_eq_true_2 by eauto. reflexivity.
    + rewrite IH. destruct (bool_decide (is_Some (assoc k props))); reflexivity.
Qed.

(** X9. [handleContractType] leaves an object whose [contract_type] is the
    argument when it is truthy and [quarter] otherwise (also for an empty
    string, 0 or null); no value is refused.  An entry the parameters already
    had under that key is overwritten in place, a new one goes last, and
    every other entry is untouched. *)
Theorem handleContractType_sets_contract_type (params contract_type : value) :
  isObject params = true ->
  let r := handleContractType params contract_type in
  get r "contract_type"
  = (if truthy contract_type then contract_type else JStr "quarter")
  /\ has r "contract_type" = true
  /\ keys r
     = (if has params "contract_type" then keys params
        else (keys params ++ ["contract_type"])%list)
  /\ forall k : string,
       k <> "contract_type" ->
       get r k = get params k /\ has r k = has params k.
Proof.
  intros Hp r. unfold r, handleContractType.
  pose proof (get_set_prop "contract_type" (JStr "quarter") params Hp)
    as [Hget Hhas].
  assert (Hq : isObject (set_prop "contract_type" (JStr "quarter") params) = true)
    by now rewrite isObject_set_prop.
  split; [|split; [|split]].
  - destruct (truthy contract_type); cbn [set_if]; [|exact Hget].
    now apply get_set_prop.
  - destruct (truthy contract_type); cbn [set_if]; [|exact Hhas].
    now apply get_set_prop.
  - destruct (truthy contract_type); cbn [set_if].
    + rewrite keys_set_prop, Hhas by exact Hq. now apply keys_set_prop.
    + now apply keys_set_prop.
  - intros k Hk.
    rewrite get_set_if_ne, has_set_if_ne, get_set_prop_ne, has_set_prop_ne
      by congruence.
    split; reflexivity.
Qed.

Lemma handleContractType_sets_contract_type_witness :
  isObject (obj [("symbol", JStr "btc_usd")]) = true
  /\ handleContractType (obj [("symbol", JStr "btc_usd")]) (JStr EmptyString)
     = obj [("symbol", JStr "btc_usd"); ("contract_type", JStr "quarter")]
  /\ get (handleContractType (obj [("symbol", JStr "btc_usd")]) (JStr "weekly"))
       "contract_type"
     = JStr "weekly".
Proof.
  split; [reflexivity|]. split; [reflexivity|].
  exact (proj1 (handleContractType_sets_contract_type
                  (obj [("symbol", JStr "btc_usd")]) (JStr "weekly") eq_refl)).
Defined.

(** The entry of the wanted key, once the assignments of other keys are
    peeled off. *)
Ltac entered :=
  eexists; split; [reflexivity|]; cbn [negb]; lookup;
  first [ split; reflexivity
        | change (set_if true) with set_prop; apply and_comm, get_set_prop;
          object ].

Ltac left_out :=
  eexists; split; [reflexivity|]; cbn [negb]; lookup; reflexivity.

Section Truthiness.

Context `{Host}.
Variables (self : OKEX) (callback : value).
Hypothesis callback_function : is_function callback = true.

Lemma getTrades_since (symbol since : value) :
  if truthy since then sends (getTrades self callback symbol since) "since" since
  else omits (getTrades self callback symbol since) "since".
Proof.
  unfold sends, omits, getTrades.
  rewrite !sent_public by (assumption || object).
  destruct (truthy since); [entered | left_out].
Qed.

Lemma getKline_optional (symbol type size since : value) :
  (if truthy type
   then sends (getKline self callback symbol type size since) "type" type
   else omits (getKline self callback symbol type size since) "type")
  /\ (if truthy size
      then sends (getKline self callback symbol type size since) "size" size
      else omits (getKline self callback symbol type size since) "size")
  /\ (if truthy since
      then sends (getKline self callback symbol type size since) "since" since
      else omits (getKline self callback symbol type size since) "since").
Proof.
  unfold sends, omits, getKline.
  rewrite !sent_public by (assumption || object).
  split; [|split].
  - destruct (truthy type); [entered | left_out].
  - destruct (truthy size); [entered | left_out].
  - destruct (truthy since); [entered | left_out].
Qed.

Lemma getDepth_optional (symbol size merge : value) :
  sends (getDepth self callback symbol size merge) "size"
    (if isUndefined size then JNum 200 else size)
  /\ sends (getDepth self callback symbol size merge) "merge"
       (if isUndefined merge then JNum 1 else merge).
Proof.
  unfold sends, getDepth.
  rewrite !sent_public by (assumption || object).
  split.
  - destruct (isUndefined size); entered.
  - destruct (isUndefined merge); entered.
Qed.

Hypothesis api_key_given : truthy (api_key self) = true.
Hypothesis secret_given : truthy (secret self) = true.

Lemma addTrade_optional (symbol type amount price : value) :
  (if truthy amount
   then sends (addTrade self callback symbol type amount price) "amount" amount
   else omits (addTrade self callback symbol type amount price) "amount")
  /\ (if truthy price
      then sends (addTrade self callback symbol type amount price) "price" price
      else omits (addTrade self callback symbol type amount price) "price").
Proof.
  unfold sends, omits, addTrade.
  rewrite !sent_private by (assumption || object).
  split.
  - destruct (truthy amount); [entered | left_out].
  - destruct (truthy price); [entered | left_out].
Qed.

Lemma getFutureOrderInfo_status_cases
  (symbol order_id status contract_type : value) :
  if eq_minus_one order_id
  then sends (getFutureOrderInfo self callback symbol order_id status
                contract_type) "status" status
  else omits (getFutureOrderInfo self callback symbol order_id status
                contract_type) "status".
Proof.
  unfold sends, omits, getFutureOrderInfo.
  rewrite !sent_private by (assumption || object).
  destruct (eq_minus_one order_id); [entered | left_out].
Qed.

End Truthiness.

(** X10. An argument guarded by [if (arg)] is entered into the mapping
    exactly when it is truthy: [since] of [getTrades], [type], [size] and
    [since] of [getKline], [amount] and [price] of [addTrade] are left out
    also when given as 0, the empty string, null or false.  [size] and
    [merge] of [getDepth] are tested against [undefined] only: any other
    value, null or 0 included, is sent as given. *)
Theorem guarded_arguments_sent_iff_truthy `{Host} (self : OKEX)
  (callback : value) :
  is_function callback = true ->
  (forall symbol since : value,
     if truthy since
     then sends (getTrades self callback symbol since) "since" since
     else omits (getTrades self callback symbol since) "since")
  /\ (forall symbol type size since : value,
        (if truthy type
         then sends (getKline self callback symbol type size since) "type" type
         else omits (getKline self callback symbol type size since) "type")
        /\ (if truthy size
            then sends (getKline self callback symbol type size since) "size" size
            else omits (getKline self callback symbol type size since) "size")
        /\ (if truthy since
            then sends (getKline self callback symbol type size since)
                   "since" since
            else omits (getKline self callback symbol type size since) "since"))
  /\ (forall symbol size merge : value,
        sends (getDepth self callback symbol size merge) "size"
          (if isUndefined size then JNum 200 else size)
        /\ sends (getDepth self callback symbol size merge) "merge"
             (if isUndefined merge then JNum 1 else merge))
  /\ (truthy (api_key self) = true -> truthy (secret self) = true ->
      forall symbol type amount price : value,
        (if truthy amount
         then sends (addTrade self callback symbol type amount price)
                "amount" amount
         else omits (addTrade self callback symbol type amount price) "amount")
        /\ (if truthy price
            then sends (addTrade self callback symbol type amount price)
                   "price" price
            else omits (addTrade self callback symbol type amount price)
                   "price")).
Proof.
  intros Hf. split; [|split; [|split]].
  - intros. now apply getTrades_since.
  - intros. now apply getKline_optional.
  - intros. now apply getDepth_optional.
  - intros Hk Hs symbol type amount price. now apply addTrade_optional.
Qed.

Lemma guarded_arguments_sent_iff_truthy_witness :
  is_function logResponse = true
  /\ omits (@getTrades sample_host sample_client logResponse (JStr "btc_usd")
              (JNum 0)) "since"
  /\ sends (@getDepth sample_host sample_client logResponse (JStr "btc_usd")
              (JNum 0) JNull) "merge" JNull.
Proof.
  pose proof (@guarded_arguments_sent_iff_truthy sample_host sample_client
                logResponse eq_refl) as (Htrades & _ & Hdepth & _).
  split; [reflexivity|]. split.
  - exact (Htrades (JStr "btc_usd") (JNum 0)).
  - exact (proj2 (Hdepth (JStr "btc_usd") (JNum 0) JNull)).
Defined.

(** X11. [getFutureOrderInfo] enters [status] into the mapping exactly when
    [order_id == '-1'], that is for the string [-1] and the number -1; for
    any other order id the status is left out even when the caller gives
    one. *)
Theorem getFutureOrderInfo_status `{Host} (self : OKEX) (callback : value) :
  truthy (api_key self) = true -> truthy (secret self) = true ->
  is_function callback = true ->
  (forall symbol status contract_type : value,
     sends (getFutureOrderInfo self callback symbol (JStr "-1") status
              contract_type) "status" status
     /\ sends (getFutureOrderInfo self callback symbol (JNum (-1)) status
                 contract_type) "status" status)
  /\ (forall (symbol status contract_type : value) (n : Z),
        n <> (-1)%Z ->
        omits (getFutureOrderInfo self callback symbol (JNum n) status
                 contract_type) "status")
  /\ (forall (symbol status contract_type : value) (s : string),
        s <> "-1" ->
        omits (getFutureOrderInfo self callback symbol (JStr s) status
                 contract_type) "status").
Proof.
  intros Hk Hs Hf. split; [|split].
  - intros symbol status contract_type. split.
    + exact (getFutureOrderInfo_status_cases self callback Hf Hk Hs symbol
               (JStr "-1") status contract_type).
    + exact (getFutureOrderInfo_status_cases self callback Hf Hk Hs symbol
               (JNum (-1)) status contract_type).
  - intros symbol status contract_type n Hn.
    pose proof (getFutureOrderInfo_status_cases self callback Hf Hk Hs symbol
                  (JNum n) status contract_type) as Hcase.
    cbn [eq_minus_one] in Hcase.
    now rewrite (proj2 (Z.eqb_neq n (-1)) Hn) in Hcase.
  - intros symbol status contract_type s Hne.
    pose proof (getFutureOrderInfo_status_cases self callback Hf Hk Hs symbol
                  (JStr s) status contract_type) as Hcase.
    cbn [eq_minus_one] in Hcase.
    now rewrite (proj2 (String.eqb_neq s "-1") Hne) in Hcase.
Qed.

Lemma getFutureOrderInfo_status_witness :
  truthy (api_key sample_client) = true
  /\ truthy (secret sample_client) = true
  /\ is_function logResponse = true
  /\ (31947122 <> -1)%Z
  /\ omits (@getFutureOrderInfo sample_host sample_client logResponse
              (JStr "btc_usd") (JNum 31947122) (JNum 1) JUndefined) "status".
Proof.
  assert (Hn : (31947122 <> -1)%Z) by discriminate.
  repeat (split; [reflexivity|]). split; [exact Hn|].
  exact (proj1 (proj2 (@getFutureOrderInfo_status sample_host sample_client
                         logResponse eq_refl eq_refl eq_refl))
           (JStr "btc_usd") (JNum 1) JUndefined 31947122 Hn).
Defined.

(** ** Endpoints *)

Lemma private_urls `{Host} (self : OKEX) (method : string)
  (params callback : value) :
  map opt_url (requests (fst (privateRequest self method params callback)))
  = if truthy (api_key self) && truthy (secret self) && isObject params
       && is_function callback
    then [to_string (server self) +:+ "/api/v1/" +:+ method +:+ ".do"]
    else [].
Proof.
  destruct (truthy (api_key self) && truthy (secret self) && isObject params
            && is_function callback) eqn:Hok.
  - apply andb_prop in Hok as [Hok Hf]. apply andb_prop in Hok as [Hok Hp].
    apply andb_prop in Hok as [Hk Hs].
    now rewrite (privateRequest_issue _ _ _ _ Hk Hs Hp Hf).
  - now rewrite privateRequest_refused.
Qed.

(** X12. The futures methods [addFutureTrade] and [cancelFutureOrder] post
    to the endpoints of the spot methods: whatever the arguments, the
    requests of [addFutureTrade] go to the URL of [addTrade] ([trade.do])
    and those of [cancelFutureOrder] to the URL of [cancelOrder]
    ([cancel_order.do]). *)
Theorem futures_post_to_spot_endpoints `{Host} (self : OKEX) (callback : value)
  (symbol type amount price match_price contract_type order_id : value)
  (symbol' type' amount' price' order_id' : value) :
  map opt_url
    (requests (fst (addFutureTrade self callback symbol type amount price
                      match_price contract_type)))
  = map opt_url
      (requests (fst (addTrade self callback symbol' type' amount' price')))
  /\ map opt_url
       (requests (fst (cancelFutureOrder self callback symbol order_id
                         contract_type)))
     = map opt_url
         (requests (fst (cancelOrder self callback symbol' order_id')))
  /\ (forall url : string,
        url ∈ map opt_url
                (requests (fst (addFutureTrade self callback symbol type amount
                                  price match_price contract_type))) ->
        url = to_string (server self) +:+ "/api/v1/trade.do")
  /\ (forall url : string,
        url ∈ map opt_url
                (requests (fst (cancelFutureOrder self callback symbol order_id
                                  contract_type))) ->
        url = to_string (server self) +:+ "/api/v1/cancel_order.do").
Proof.
  unfold addFutureTrade, addTrade, cancelFutureOrder, cancelOrder.
  rewrite !private_urls.
  rewrite !isObject_handleContractType, !isObject_set_if. cbn [isObject obj].
  split; [reflexivity|]. split; [reflexivity|].
  destruct (truthy (api_key self) && truthy (secret self) && true
            && is_function callback).
  - split; intros url Hin; apply list_elem_of_singleton in Hin; exact Hin.
  - split; intros url Hin; apply elem_of_nil in Hin; contradiction.
Qed.

Lemma futures_post_to_spot_endpoints_witness :
  "https://www.okex.com/api/v1/trade.do"
  ∈ map opt_url
      (requests
         (fst (@addFutureTrade sample_host sample_client logResponse
                 (JStr "btc_usd") (JNum 1) (JNum 2) (JNum 500) JUndefined
                 (JStr "this_week"))))
  /\ "https://www.okex.com/api/v1/trade.do"
     = to_string (server sample_client) +:+ "/api/v1/trade.do".
Proof.
  assert (Hin : "https://www.okex.com/api/v1/trade.do"
                ∈ map opt_url
                    (requests
                       (fst (@addFutureTrade sample_host sample_client
                               logResponse (JStr "btc_usd") (JNum 1) (JNum 2)
                               (JNum 500) JUndefined (JStr "this_week")))))
    by (apply list_elem_of_singleton; reflexivity).
  split; [exact Hin|].
  exact (proj1 (proj2 (proj2 (@futures_post_to_spot_endpoints sample_host
                                sample_client logResponse (JStr "btc_usd")
                                (JNum 1) (JNum 2) (JNum 500) JUndefined
                                (JStr "this_week") JUndefined JUndefined
                                JUndefined JUndefined JUndefined JUndefined)))
           _ Hin).
Defined.

(** ** The canonical string and the signature *)

Lemma formatParameters_perm (fn fn' : option string)
  (p q : list (string * value)) :
  NoDup (map fst p) -> p ≡ₚ q ->
  formatParameters (JObj fn p) = formatParameters (JObj fn' q).
Proof.
  intros Hnd Hp. rewrite !formatParameters_spec.
  unfold canonical_string, canonical_pairs. cbn [keys].
  assert (Hk : map fst p ≡ₚ map fst q) by now rewrite Hp.
  rewrite (sort_unique _ _ Hk). f_equal.
  apply map_ext. intros k. unfold pair_of, get.
  now rewrite (assoc_perm k p q Hnd Hp).
Qed.

(** X13. The signature does not depend on the order in which the
    parameters were entered: two objects with the same entries under
    distinct keys are signed alike by every client. *)
Theorem signMessage_order_independent (self : OKEX) (fn fn' : option string)
  (p q : list (string * value)) :
  NoDup (map fst p) -> p ≡ₚ q ->
  signMessage self (JObj fn p) = signMessage self (JObj fn' q).
Proof.
  intros Hnd Hp. unfold signMessage. cbv zeta.
  now rewrite (formatParameters_perm fn fn' p q Hnd Hp).
Qed.

Lemma signMessage_order_independent_witness :
  NoDup (map fst [("symbol", JStr "btc_usd"); ("api_key", JStr "key")])
  /\ signMessage sample_client
       (obj [("symbol", JStr "btc_usd"); ("api_key", JStr "key")])
     = signMessage sample_client
         (obj [("api_key", JStr "key"); ("symbol", JStr "btc_usd")]).
Proof.
  assert (Hnd : NoDup (map fst [("symbol", JStr "btc_usd");
                                ("api_key", JStr "key")])).
  { apply (bool_decide_unpack _). vm_compute. reflexivity. }
  split; [exact Hnd|].
  exact (signMessage_order_independent sample_client None None _ _ Hnd
           (Permutation_swap _ _ _)).
Defined.

Lemma sort_sorted_id (xs : list string) :
  StronglySorted string_le xs -> sort xs = xs.
Proof.
  intros Hs. apply (StronglySorted_unique string_le);
    [apply sort_sorted | exact Hs | apply sort_perm].
Qed.

(** X14. The canonical string does not tell a value that holds [&] and [=]
    from further parameters: for keys [a <= b] in the order of the sort
    (of their UTF-16 code units), the one entry
    [a: v&b=w] and the two entries [a: v, b: w] have the same canonical
    string, and so the same signature. *)
Theorem canonical_string_ambiguous (self : OKEX) (a b v w : string) :
  string_le a b -> a <> b ->
  formatParameters (obj [(a, JStr (v +:+ "&" +:+ b +:+ "=" +:+ w))])
  = formatParameters (obj [(a, JStr v); (b, JStr w)])
  /\ signMessage self (obj [(a, JStr (v +:+ "&" +:+ b +:+ "=" +:+ w))])
     = signMessage self (obj [(a, JStr v); (b, JStr w)]).
Proof.
  intros Hab Hne.
  assert (Heq : formatParameters
                  (obj [(a, JStr (v +:+ "&" +:+ b +:+ "=" +:+ w))])
                = formatParameters (obj [(a, JStr v); (b, JStr w)])).
  { rewrite !formatParameters_spec.
    unfold canonical_string, canonical_pairs. cbn [keys obj map fst].
    rewrite (sort_sorted_id [a]) by repeat constructor.
    rewrite (sort_sorted_id [a; b]) by (repeat constructor; exact Hab).
    unfold pair_of, obj, get. cbn [map assoc].
    rewrite !String.eqb_refl.
    rewrite (proj2 (String.eqb_neq b a)) by congruence.
    cbn [to_string String.concat].
    now rewrite !append_assoc. }
  split; [exact Heq|]. unfold signMessage. cbv zeta. now rewrite Heq.
Qed.

Lemma canonical_string_ambiguous_witness :
  string_le "amount" "price"
  /\ formatParameters (obj [("amount", JStr "1&price=100")])
     = formatParameters (obj [("amount", JStr "1"); ("price", JStr "100")]).
Proof.
  assert (Hle : string_le "amount" "price") by exact I.
  split; [exact Hle|].
  refine (proj1 (canonical_string_ambiguous sample_client "amount" "price" "1"
                   "100" Hle _)).
  discriminate.
Defined.

(** X15. What is not an object has no keys: its canonical string is empty,
    and its signature is the uppercase MD5 of [&secret_key=<secret>]
    alone. *)
Theorem signMessage_non_object (self : OKEX) (params : value) :
  isObject params = false ->
  formatParameters params = EmptyString
  /\ signMessage self params
     = toUpperCase (MD5.md5 ("&secret_key=" +:+ to_string (secret self))).
Proof.
  intros Hp.
  assert (Hf : formatParameters params = EmptyString)
    by (destruct params; try discriminate; reflexivity).
  split; [exact Hf|]. unfold signMessage. cbv zeta. now rewrite Hf.
Qed.

Lemma signMessage_non_object_witness :
  isObject JUndefined = false
  /\ signMessage sample_client JUndefined
     = toUpperCase (MD5.md5 "&secret_key=secret").
Proof.
  split; [reflexivity|].
  exact (proj2 (signMessage_non_object sample_client JUndefined eq_refl)).
Defined.

(** ** More on errors *)

(** X16. The body of a private request is parsed only when the status is in
    [200, 300): with any other status the text of the body is passed on
    unparsed and the error is the HTTP error (its name the status code),
    also when the text would parse to an object with an [error_code]. *)
Theorem private_http_failure_not_parsed `{Host} (self : OKEX) (method : string)
  (params callback : value) (statusCode : Z) (body : string) :
  truthy (api_key self) = true -> truthy (secret self) = true ->
  isObject params = true -> is_function callback = true ->
  (statusCode < 200 \/ 300 <= statusCode)%Z ->
  map (fun c => (option_map name (fst c), option_map info (fst c), snd c))
    (callbacks
       (trace (fun _ => Responded statusCode (JStr body))
          (privateRequest self method params callback)))
  = [(Some (JNum statusCode), Some JUndefined, JStr body)].
Proof.
  intros Hk Hs Hp Hf Hstatus.
  rewrite (privateRequest_issue _ _ _ _ Hk Hs Hp Hf).
  unfold trace. cbn [fst flat_map respond app callbacks].
  rewrite (handler_ok _ _ _ _ _ Hf (classify_http _ _ _ _ Hstatus)).
  rewrite override_keep by reflexivity.
  reflexivity.
Qed.

Lemma private_http_failure_not_parsed_witness :
  truthy (api_key sample_client) = true
  /\ (500 < 200 \/ 300 <= 500)%Z
  /\ @JSON_parse sample_host body_10007
     = Parsed (obj [("error_code", JNum 10007)])
  /\ map (fun c => (option_map name (fst c), option_map info (fst c), snd c))
       (callbacks
          (@trace sample_host (fun _ => Responded 500 (JStr body_10007))
             (@getUserInfo sample_host sample_client logResponse)))
     = [(Some (JNum 500), Some JUndefined, JStr body_10007)].
Proof.
  assert (Hs : (500 < 200 \/ 300 <= 500)%Z) by (right; lia).
  split; [reflexivity|]. split; [exact Hs|]. split; [reflexivity|].
  exact (@private_http_failure_not_parsed sample_host sample_client "userinfo"
           (obj []) logResponse 500 body_10007 eq_refl eq_refl eq_refl eq_refl
           Hs).
Defined.

Lemma assoc_forallb (P : value -> bool) (props : list (string * value))
  (k : string) (v : value) :
  forallb (fun kv => P (snd kv)) props = true ->
  assoc k props = Some v -> P v = true.
Proof.
  induction props as [|[k' v'] props IH]; cbn [forallb assoc snd];
    [discriminate|].
  intros [Hv Hall]%andb_prop. destruct (String.eqb k k'); [|auto].
  now intros [= <-].
Qed.

(** X17. For every integer code [mapErrorMessage] returns a string that is
    not empty: the entry of the table or the unknown-code message, never
    [undefined]. *)
Theorem mapErrorMessage_numeric_message (n : Z) :
  exists s : string, mapErrorMessage (JNum n) = JStr s /\ s <> EmptyString.
Proof.
  destruct (decide (decimal n ∈ keys errorCodes)) as [Hin|Hout].
  - destruct (mapErrorMessage_known n Hin) as [-> _].
    unfold get, errorCodes, obj in *. cbn [keys] in Hin.
    match goal with |- context [assoc _ ?t] => set (table := t) in * end.
    destruct (assoc (decimal n) table) as [v|] eqn:Hk.
    + pose proof (assoc_forallb
                    (fun v => match v with
                              | JStr s => negb (String.eqb s EmptyString)
                              | _ => false
                              end)
                    table (decimal n) v ltac:(vm_compute; reflexivity) Hk)
        as Hv.
      cbv beta in Hv.
      destruct v as [| | | | | |s|]; try discriminate.
      exists s. split; [reflexivity|].
      apply String.eqb_neq. now apply Bool.negb_true_iff.
    + apply assoc_None_notin in Hk. contradiction.
  - rewrite (mapErrorMessage_unknown n Hout). eexists. split; [reflexivity|].
    discriminate.
Qed.

(** X18. The table is a plain object, so a code that is the name of a
    member every object inherits ([constructor], [toString], ...) is found
    in it: [mapErrorMessage] then returns that member, an object, instead of
    a message. *)
Theorem mapErrorMessage_inherited_member (k : string) (member : value) :
  assoc k Object_prototype = Some member ->
  mapErrorMessage (JStr k) = member /\ isObject member = true.
Proof.
  intros Hk. apply assoc_Some_elem in Hk. unfold Object_prototype in Hk.
  repeat (apply elem_of_cons in Hk as [[= -> ->]|Hk];
          [split; vm_compute; reflexivity|]).
  apply elem_of_nil in Hk. contradiction.
Qed.

Lemma mapErrorMessage_inherited_member_witness :
  assoc "constructor" Object_prototype = Some (native "Object")
  /\ mapErrorMessage (JStr "constructor") = native "Object".
Proof.
  split; [reflexivity|].
  exact (proj1 (mapErrorMessage_inherited_member "constructor" (native "Object")
                  eq_refl)).
Defined.

(** X19. [getTradeHistory] enters [since] into the object literal without a
    guard: called without it, the form still holds the key [since], with the
    value [undefined], and the signature is taken over the text
    [since=undefined]. *)
Theorem getTradeHistory_signs_undefined `{Host} (self : OKEX)
  (callback symbol : value) :
  truthy (api_key self) = true -> truthy (secret self) = true ->
  is_function callback = true ->
  sent_params (getTradeHistory self callback symbol JUndefined)
  = [obj [("symbol", symbol); ("since", JUndefined);
          ("api_key", api_key self);
          ("sign",
           JStr (toUpperCase
                   (MD5.md5 ("api_key=" +:+ to_string (api_key self)
                             +:+ "&since=undefined&symbol=" +:+ to_string symbol
                             +:+ "&secret_key=" +:+ to_string (secret self)))))]].
Proof.
  intros Hk Hs Hf.
  assert (Hsign : signMessage self
                    (obj [("symbol", symbol); ("since", JUndefined);
                          ("api_key", api_key self)])
                  = toUpperCase
                      (MD5.md5 ("api_key=" +:+ to_string (api_key self)
                                +:+ "&since=undefined&symbol="
                                +:+ to_string symbol
                                +:+ "&secret_key=" +:+ to_string (secret self)))).
  { unfold signMessage. cbv zeta.
    rewrite formatParameters_spec. unfold canonical_string, canonical_pairs.
    replace (sort (keys (obj [("symbol", symbol); ("since", JUndefined);
                              ("api_key", api_key self)])))
      with ["api_key"; "since"; "symbol"] by (vm_compute; reflexivity).
    unfold pair_of, obj, get.
    cbn [map String.concat assoc String.eqb Ascii.eqb Bool.eqb to_string].
    now rewrite !append_assoc. }
  unfold getTradeHistory.
  rewrite (sent_private _ _ Hf) by (assumption || reflexivity).
  change (set_prop "api_key" (api_key self)
            (obj [("symbol", symbol); ("since", JUndefined)]))
    with (obj [("symbol", symbol); ("since", JUndefined);
               ("api_key", api_key self)]).
  rewrite Hsign. reflexivity.
Qed.

Lemma getTradeHistory_signs_undefined_witness :
  truthy (api_key sample_client) = true
  /\ truthy (secret sample_client) = true
  /\ is_function logResponse = true
  /\ map (fun p => get p "since")
       (sent_params (@getTradeHistory sample_host sample_client logResponse
                       (JStr "btc_usd") JUndefined))
     = [JUndefined]
  /\ map (fun p => has p "since")
       (sent_params (@getTradeHistory sample_host sample_client logResponse
                       (JStr "btc_usd") JUndefined))
     = [true].
Proof.
  repeat (split; [reflexivity|]).
  rewrite (@getTradeHistory_signs_undefined sample_host sample_client
             logResponse (JStr "btc_usd") eq_refl eq_refl eq_refl).
  split; reflexivity.
Defined.

(** X20. A public call whose parameters are not an object issues no
    request: a callback that is a function is called at once with the
    parameters error of [publicRequest] and no data.  The credentials of the
    client are never looked at. *)
Theorem publicRequest_invalid_params `{Host} (self : OKEX) (method : string)
  (params callback : value) :
  isObject params = false -> is_function callback = true ->
  publicRequest self method params callback
  = ([Callback (Some (params_error "OKEX.publicRequest()" params)) JUndefined],
     Returned)
  /\ forall network : Options -> reply,
       trace network (publicRequest self method params callback)
       = [Callback (Some (params_error "OKEX.publicRequest()" params))
            JUndefined].
Proof.
  intros Hp Hf.
  assert (Hcall : publicRequest self method params callback
                  = ([Callback (Some (params_error "OKEX.publicRequest()" params))
                        JUndefined], Returned)).
  { unfold publicRequest. rewrite Hp. cbn [negb]. now apply call_function. }
  split; [exact Hcall|]. intros network. now rewrite Hcall.
Qed.

Lemma publicRequest_invalid_params_witness :
  isObject (JStr "btc_usd") = false
  /\ is_function logResponse = true
  /\ @publicRequest sample_host anonymous_client "ticker" (JStr "btc_usd")
       logResponse
     = ([Callback
           (Some (params_error "OKEX.publicRequest()" (JStr "btc_usd")))
           JUndefined],
        Returned).
Proof.
  split; [reflexivity|]. split; [reflexivity|].
  exact (proj1 (@publicRequest_invalid_params sample_host anonymous_client
                  "ticker" (JStr "btc_usd") logResponse eq_refl eq_refl)).
Defined.
